(** * VGGNet for CIFAR-10: the training recipe of [VGGNet.ipynb]

    A shallow embedding of the notebook's own code: the stepped
    learning-rate schedule, [normalize], the augmentation and training
    configuration, the layer stack handed to [Sequential], and the class
    labels given to the Core ML converter.

    Numbers.  Hyper-parameters and the schedule are rationals ([Q]), with
    a binary64 evaluation of the schedule beside it.  Array code is
    generic in the scalar type ([Dtype]), which is instantiated at the
    reals and at binary64.  Python integers are [Z]. *)

From Stdlib Require Import String Ascii.
From Stdlib Require Import ZArith QArith Qpower List Bool Lia Lra.
From Stdlib Require Import Reals.
From Stdlib Require Lqa.
From Stdlib Require Import Permutation.
From Stdlib Require Import Floats.
Import ListNotations.

Set Warnings "-inexact-float".

(** ** Hyper-parameters (the cell that follows [lr_scheduler]) *)

Module Hyper.

Definition input_shape : list Z := [32; 32; 3]%Z.
Definition classes : Z := 10.
Definition weight_decay : Q := 5 # 10000.
Definition learning_rate : Q := 1 # 10.
Definition lr_decay : Q := 1 # 1000000.
Definition lr_drop : Z := 20.
Definition batch_size : Z := 128.
Definition epochs : Z := 250.

End Hyper.

(** ** The stepped schedule

    [def lr_scheduler(epoch): return learning_rate * (0.5 ** (epoch // lr_drop))]

    Python's [//] on integers is floor division, which is [Z.div]; [**]
    with an integer exponent is [Qpower] (negative exponents invert). *)

Module Schedule.
Import Hyper.

Definition lr_scheduler (epoch : Z) : Q :=
  learning_rate * ((1 # 2) ^ (epoch / lr_drop)).

(** The same expression on binary64 values, for the epochs the notebook
    can reach: [0.5 ** k] with [k >= 0] is computed by repeated halving,
    which is exact on binary64.  [0x1.999999999999ap-4] is the binary64
    value that the literal [0.1] denotes. *)
Fixpoint pow_half (k : nat) : float :=
  match k with
  | O => 1%float
  | S k' => (0.5 * pow_half k')%float
  end.

Definition learning_rate_f64 : float := 0x1.999999999999ap-4%float.

Definition lr_scheduler_f64 (epoch : Z) : float :=
  (learning_rate_f64 * pow_half (Z.to_nat (epoch / lr_drop)))%float.

End Schedule.

(** ** Arrays and [normalize]

    [x_train] and [x_test] are rank-4 arrays (samples, height, width,
    channels), here lists nested four deep.  The element type is whatever
    the arrays hold (the notebook casts to float32); the operations
    [normalize] needs form the class [Dtype], one scalar type standing for
    the elements, the statistics and the literal [1e-7].  Reductions run
    over the elements in row-major order. *)

Module NumPy.

Class Dtype (A : Type) : Type := {
  zero : A;
  add : A -> A -> A;
  sub : A -> A -> A;
  mul : A -> A -> A;
  div : A -> A -> A;
  sqrt : A -> A;
  of_count : nat -> A;
  (** the literal [1e-7] *)
  lit_1e_7 : A
}.

Definition ndarray4 (A : Type) : Type := list (list (list (list A))).

Definition index4 : Type := (nat * nat * nat * nat)%type.

Section Arrays.
Context {A : Type} `{Dtype A}.

(** The elements in row-major order, and their number. *)
Definition ravel (t : ndarray4 A) : list A := concat (concat (concat t)).

Definition size (t : ndarray4 A) : nat := length (ravel t).

(** [t[i, j, k, c]] *)
Definition item (t : ndarray4 A) (ix : index4) : option A :=
  let '(i, j, k, c) := ix in
  match nth_error t i with
  | None => None
  | Some ti =>
    match nth_error ti j with
    | None => None
    | Some tij =>
      match nth_error tij k with
      | None => None
      | Some tijk => nth_error tijk c
      end
    end
  end.

(** An elementwise ufunc. *)
Definition map4 (f : A -> A) (t : ndarray4 A) : ndarray4 A :=
  map (map (map (map f))) t.

(** [t - s] and [t / s] with a 0-d [s], broadcast over the array. *)
Definition sub_scalar (t : ndarray4 A) (s : A) : ndarray4 A :=
  map4 (fun x => sub x s) t.

Definition div_scalar (t : ndarray4 A) (s : A) : ndarray4 A :=
  map4 (fun x => div x s) t.

(** [np.sum], [np.mean] and [np.std] with [axis=(0,1,2,3)]: all four axes
    are reduced, the result is 0-d. *)
Definition np_sum (t : ndarray4 A) : A := fold_left add (ravel t) zero.

Definition np_mean (t : ndarray4 A) : A :=
  div (np_sum t) (of_count (size t)).

Definition np_std (t : ndarray4 A) : A :=
  let arrmean := np_mean t in
  let x := sub_scalar t arrmean in
  sqrt (np_mean (map4 (fun d => mul d d) x)).

(** [[
def normalize(X_train,X_test):
    mean = np.mean(X_train,axis=(0,1,2,3))
    std = np.std(X_train, axis=(0,1,2,3))
    X_train = (X_train-mean)/(std+1e-7)
    X_test = (X_test-mean)/(std+1e-7)
    return X_train, X_test
]] *)
Definition normalize (X_train X_test : ndarray4 A)
  : ndarray4 A * ndarray4 A :=
  let mean := np_mean X_train in
  let std := np_std X_train in
  let X_train := div_scalar (sub_scalar X_train mean) (add std lit_1e_7) in
  let X_test := div_scalar (sub_scalar X_test mean) (add std lit_1e_7) in
  (X_train, X_test).

(** The two statistics [normalize] binds, and the map it applies to one
    element. *)
Definition fitted_statistics (X_train : ndarray4 A) : A * A :=
  (np_mean X_train, np_std X_train).

Definition standardize (stats : A * A) (x : A) : A :=
  div (sub x (fst stats)) (add (snd stats) lit_1e_7).

(** Statistics of one channel alone (a reduction over axes (0,1,2)
    only): what [normalize] would use if it normalised per channel.  Not
    used by the notebook. *)
Definition channel (t : ndarray4 A) (c : nat) : ndarray4 A :=
  map (map (map (fun px => firstn 1 (skipn c px)))) t.

Definition channel_statistics (t : ndarray4 A) (c : nat) : A * A :=
  fitted_statistics (channel t c).

End Arrays.

(** The reals. *)
#[export] Instance Dtype_R : Dtype R := {|
  zero := 0%R;
  add := Rplus;
  sub := Rminus;
  mul := Rmult;
  div := Rdiv;
  sqrt := R_sqrt.sqrt;
  of_count := INR;
  lit_1e_7 := (1 / 10000000)%R
|}.

(** binary64, on which [normalize] runs. *)
#[export] Instance Dtype_f64 : Dtype float := {|
  zero := 0%float;
  add := PrimFloat.add;
  sub := PrimFloat.sub;
  mul := PrimFloat.mul;
  div := PrimFloat.div;
  sqrt := PrimFloat.sqrt;
  of_count := fun n => PrimFloat.of_uint63 (Uint63.of_Z (Z.of_nat n));
  lit_1e_7 := 0x1.ad7f29abcaf48p-24%float
|}.

(** A two-channel, one-pixel training set, over the reals and over
    binary64, and a one-pixel evaluation set. *)
Definition two_channels : ndarray4 R := [[[[0; 2]]]]%R.

Definition two_channels_f64 : ndarray4 float := [[[[0; 2]]]]%float.

Definition one_pixel_f64 (v : float) : ndarray4 float := [[[[v; v]]]].

End NumPy.

(** ** Data augmentation

    [[
train_datagen = ImageDataGenerator(
            rotation_range=15,
            width_shift_range=0.1,
            height_shift_range=0.1,
            horizontal_flip=True)
    ]]

    The record lists the constructor's keyword arguments; the ones the
    notebook does not pass hold the constructor's defaults. *)

Module Augmentation.

Record ImageDataGenerator : Type := {
  featurewise_center : bool;
  samplewise_center : bool;
  featurewise_std_normalization : bool;
  samplewise_std_normalization : bool;
  zca_whitening : bool;
  rotation_range : Q;
  width_shift_range : Q;
  height_shift_range : Q;
  shear_range : Q;
  zoom_range : Q;
  channel_shift_range : Q;
  horizontal_flip : bool;
  vertical_flip : bool;
  rescale : option Q
}.

Definition train_datagen : ImageDataGenerator := {|
  featurewise_center := false;
  samplewise_center := false;
  featurewise_std_normalization := false;
  samplewise_std_normalization := false;
  zca_whitening := false;
  rotation_range := 15;
  width_shift_range := 1 # 10;
  height_shift_range := 1 # 10;
  shear_range := 0;
  zoom_range := 0;
  channel_shift_range := 0;
  horizontal_flip := true;
  vertical_flip := false;
  rescale := None
|}.

(** *** Drawing the parameters of one image's transform

    The generator draws from [np.random].  The draws are an explicit
    input: [tape k] is the value of the [k]-th call of the underlying
    uniform sampler on [[0, 1)], and a computation threads the number of
    draws made so far. *)

Definition Rand (T : Type) : Type := (nat -> Q) -> nat -> T * nat.

Definition ret {T : Type} (x : T) : Rand T := fun _ n => (x, n).

Definition bind {T U : Type} (m : Rand T) (k : T -> Rand U) : Rand U :=
  fun tape n => let '(x, n') := m tape n in k x tape n'.

Notation "x <- m ;; k" := (bind m (fun x => k))
  (at level 61, m at next level, right associativity).

(** [np.random.random()] and [np.random.uniform(low, high)]. *)
Definition random : Rand Q := fun tape n => (tape n, S n).

Definition uniform (low high : Q) : Rand Q :=
  u <- random ;; ret (low + (high - low) * u).

Definition nonzero (q : Q) : bool := negb (Qeq_bool q 0).

(** What is done to one image: the rotation angle (degrees), the row and
    column translations (pixels), shear (degrees), the two zoom factors,
    the amplitude of a channel shift if any, and the two mirrorings. *)
Record transform : Type := {
  theta : Q;
  tx : Q;
  ty : Q;
  shear : Q;
  zx : Q;
  zy : Q;
  channel_shift : option Q;
  flip_horizontal : bool;
  flip_vertical : bool
}.

(** The parameter draws of [ImageDataGenerator.random_transform] for an
    image of [rows] by [cols] pixels (Keras 2.1.5, the version the
    notebook's log reports): each perturbation is drawn only if its range
    or flag is set. *)
Definition random_transform (g : ImageDataGenerator) (rows cols : Q)
  : Rand transform :=
  theta <- (if nonzero (rotation_range g)
            then uniform (- rotation_range g) (rotation_range g)
            else ret 0) ;;
  tx <- (if nonzero (height_shift_range g)
         then u <- uniform (- height_shift_range g) (height_shift_range g) ;;
              ret (u * rows)
         else ret 0) ;;
  ty <- (if nonzero (width_shift_range g)
         then u <- uniform (- width_shift_range g) (width_shift_range g) ;;
              ret (u * cols)
         else ret 0) ;;
  shear <- (if nonzero (shear_range g)
            then uniform (- shear_range g) (shear_range g)
            else ret 0) ;;
  zoom <- (if nonzero (zoom_range g)
           then zx <- uniform (1 - zoom_range g) (1 + zoom_range g) ;;
                zy <- uniform (1 - zoom_range g) (1 + zoom_range g) ;;
                ret (zx, zy)
           else ret (1, 1)) ;;
  shift <- (if nonzero (channel_shift_range g)
            then u <- uniform (- channel_shift_range g) (channel_shift_range g) ;;
                 ret (Some u)
            else ret None) ;;
  fh <- (if horizontal_flip g
         then u <- random ;; ret (negb (Qle_bool (1 # 2) u))
         else ret false) ;;
  fv <- (if vertical_flip g
         then u <- random ;; ret (negb (Qle_bool (1 # 2) u))
         else ret false) ;;
  ret {| theta := theta; tx := tx; ty := ty; shear := shear;
         zx := fst zoom; zy := snd zoom; channel_shift := shift;
         flip_horizontal := fh; flip_vertical := fv |}.

End Augmentation.

(** ** The network

    The argument of each [model.add], in order. *)

Module Network.
Import Hyper.
Local Open Scope string_scope.
Local Open Scope Z_scope.

Inductive activation : Type := relu | softmax.

Inductive padding : Type := same | valid.

Inductive layer : Type :=
| Conv2D (filters : Z) (kernel_size : Z * Z) (act : activation)
         (pad : padding) (kernel_regularizer : option Q) (name : string)
| BatchNormalization
| Dropout (rate : Q)
| MaxPooling2D (pool_size : Z * Z) (name : string)
| Flatten (name : string)
| Dense (units : Z) (act : activation) (kernel_regularizer : option Q)
        (name : string).

(** [regularizers.l2(weight_decay)] *)
Definition l2 (l : Q) : option Q := Some l.

Definition block1 : list layer :=
  [ Conv2D 64 (3,3) relu same (l2 weight_decay) "block1_conv1";
    BatchNormalization;
    Dropout (3 # 10);
    Conv2D 64 (3,3) relu same None "block1_conv2";
    BatchNormalization;
    MaxPooling2D (2,2) "block1_pool" ].

Definition block2 : list layer :=
  [ Conv2D 128 (3,3) relu same (l2 weight_decay) "block2_conv1";
    BatchNormalization;
    Dropout (4 # 10);
    Conv2D 128 (3,3) relu same (l2 weight_decay) "block2_conv2";
    BatchNormalization;
    MaxPooling2D (2,2) "block2_pool" ].

Definition block3 : list layer :=
  [ Conv2D 256 (3,3) relu same (l2 weight_decay) "block3_conv1";
    BatchNormalization;
    Dropout (4 # 10);
    Conv2D 256 (3,3) relu same (l2 weight_decay) "block3_conv2";
    BatchNormalization;
    Dropout (4 # 10);
    Conv2D 256 (3,3) relu same (l2 weight_decay) "block3_conv3";
    BatchNormalization;
    MaxPooling2D (2,2) "block3_pool" ].

Definition block4 : list layer :=
  [ Conv2D 512 (3,3) relu same (l2 weight_decay) "block4_conv1";
    BatchNormalization;
    Dropout (4 # 10);
    Conv2D 512 (3,3) relu same (l2 weight_decay) "block4_conv2";
    BatchNormalization;
    Dropout (4 # 10);
    Conv2D 512 (3,3) relu same (l2 weight_decay) "block4_conv3";
    BatchNormalization;
    MaxPooling2D (2,2) "block4_pool" ].

Definition block5 : list layer :=
  [ Conv2D 512 (3,3) relu same (l2 weight_decay) "block5_conv1";
    BatchNormalization;
    Dropout (4 # 10);
    Conv2D 512 (3,3) relu same (l2 weight_decay) "block5_conv2";
    BatchNormalization;
    Dropout (4 # 10);
    Conv2D 512 (3,3) relu same (l2 weight_decay) "block5_conv3";
    BatchNormalization;
    MaxPooling2D (2,2) "block5_pool" ].

Definition head : list layer :=
  [ Dropout (5 # 10);
    Flatten "flatten";
    Dense 512 relu (l2 weight_decay) "fc1";
    BatchNormalization;
    Dropout (5 # 10);
    Dense classes softmax None "predictions" ].

Definition blocks : list (list layer) :=
  [block1; block2; block3; block4; block5].

Definition model : list layer := List.concat blocks ++ head.

(** *** The regularisation carried by a block

    Each convolution of a block together with the layers that follow it
    up to the next convolution. *)

Definition is_conv (l : layer) : bool :=
  match l with
  | Conv2D _ _ _ _ _ _ => true
  | _ => false
  end.

Fixpoint until_conv (ls : list layer) : list layer :=
  match ls with
  | [] => []
  | l :: ls' => if is_conv l then [] else l :: until_conv ls'
  end.

Fixpoint segments (ls : list layer) : list (layer * list layer) :=
  match ls with
  | [] => []
  | l :: ls' =>
    if is_conv l then (l, until_conv ls') :: segments ls' else segments ls'
  end.

Definition regularizer_of (l : layer) : option Q :=
  match l with
  | Conv2D _ _ _ _ r _ => r
  | Dense _ _ r _ => r
  | _ => None
  end.

(** The kernel regulariser of each convolution of a block. *)
Definition conv_regularizers (b : list layer) : list (option Q) :=
  map (fun seg => regularizer_of (fst seg)) (segments b).

(** Is each convolution directly followed by batch normalisation? *)
Definition batch_norm_follows (b : list layer) : list bool :=
  map (fun seg => match snd seg with
                  | BatchNormalization :: _ => true
                  | _ => false
                  end) (segments b).

(** The dropout rate placed after each convolution (after its batch
    normalisation), if any. *)
Definition dropout_after (b : list layer) : list (option Q) :=
  map (fun seg => match snd seg with
                  | BatchNormalization :: Dropout r :: _ => Some r
                  | _ => None
                  end) (segments b).

(** "L2 weight decay on the first convolution only", and on every
    convolution. *)
Definition l2_on_first_conv_only (b : list layer) : Prop :=
  conv_regularizers b
  = Some weight_decay :: repeat None (length (segments b) - 1).

Definition l2_on_every_conv (b : list layer) : Prop :=
  conv_regularizers b = repeat (Some weight_decay) (length (segments b)).

(** The pattern as the table of the architecture words it: weight decay
    on the first convolution of every block and on no other, batch
    normalisation after every convolution, dropout 0.3 after the first
    convolution of block 1, 0.4 after the first convolution of block 2 and
    after the first two convolutions of blocks 3 to 5. *)
Definition tabulated_pattern (bs : list (list layer)) : Prop :=
  Forall l2_on_first_conv_only bs /\
  Forall (fun b => Forall (eq true) (batch_norm_follows b)) bs /\
  map dropout_after bs
  = [ [Some (3 # 10); None];
      [Some (4 # 10); None];
      [Some (4 # 10); Some (4 # 10); None];
      [Some (4 # 10); Some (4 # 10); None];
      [Some (4 # 10); Some (4 # 10); None] ].

(** *** Output shapes

    A shape is the list of dimensions, batch first, channels last.  A
    layer given an input of the wrong rank has no output shape. *)

Definition shape : Type := list Z.

(** Length of a convolved or pooled axis. *)
Definition conv_output_length (input_length filter_size : Z) (pad : padding)
    (stride : Z) : Z :=
  let output_length :=
    match pad with
    | same => input_length
    | valid => input_length - filter_size + 1
    end in
  (output_length + stride - 1) / stride.

Definition compute_output_shape (l : layer) (s : shape) : option shape :=
  match l, s with
  | Conv2D filters (kh, kw) _ pad _ _, [b; h; w; _] =>
      Some [b; conv_output_length h kh pad 1;
               conv_output_length w kw pad 1; filters]
  | MaxPooling2D (ph, pw) _, [b; h; w; c] =>
      Some [b; conv_output_length h ph valid ph;
               conv_output_length w pw valid pw; c]
  | Flatten _, b :: rest => Some [b; fold_right Z.mul 1 rest]
  | Dense units _ _ _, [b; _] => Some [b; units]
  | BatchNormalization, _ => Some s
  | Dropout _, _ => Some s
  | _, _ => None
  end.

(** The shape after each layer, in order. *)
Fixpoint output_shapes (ls : list layer) (s : shape) : option (list shape) :=
  match ls with
  | [] => Some []
  | l :: ls' =>
    match compute_output_shape l s with
    | None => None
    | Some s' =>
      match output_shapes ls' s' with
      | None => None
      | Some ss => Some (s' :: ss)
      end
    end
  end.

Definition output_shape (ls : list layer) (s : shape) : option shape :=
  match output_shapes ls s with
  | None => None
  | Some ss => Some (last ss s)
  end.

Definition is_pool (l : layer) : bool :=
  match l with
  | MaxPooling2D _ _ => true
  | _ => false
  end.

Definition is_flatten (l : layer) : bool :=
  match l with
  | Flatten _ => true
  | _ => false
  end.

(** The output shapes of the layers selected by [p]. *)
Definition shapes_after (p : layer -> bool) (ls : list layer) (s : shape)
  : list shape :=
  match output_shapes ls s with
  | None => []
  | Some ss => map snd (filter (fun ls => p (fst ls)) (combine ls ss))
  end.

(** *** Parameter counts

    Weights of a layer fed an input of shape [s]: trainable and
    non-trainable.  A convolution and a dense layer hold a kernel and a
    bias; batch normalisation holds gamma and beta (trained) and the
    moving mean and variance (not trained), each one value per channel. *)

Definition count_params (l : layer) (s : shape) : Z * Z :=
  match l with
  | Conv2D filters (kh, kw) _ _ _ _ =>
      (kh * kw * last s 0 * filters + filters, 0)
  | Dense units _ _ _ => (last s 0 * units + units, 0)
  | BatchNormalization => (2 * last s 0, 2 * last s 0)
  | Dropout _ | MaxPooling2D _ _ | Flatten _ => (0, 0)
  end.

(** The rows of [model.summary()]: output shape (without the batch axis)
    and the parameter count of each layer. *)
Fixpoint summary (ls : list layer) (s : shape) : list (shape * Z) :=
  match ls with
  | [] => []
  | l :: ls' =>
    match compute_output_shape l s with
    | None => []
    | Some s' =>
      let '(t, n) := count_params l s in
      (tl s', t + n) :: summary ls' s'
    end
  end.

Fixpoint total_counts (ls : list layer) (s : shape) : Z * Z :=
  match ls with
  | [] => (0, 0)
  | l :: ls' =>
    match compute_output_shape l s with
    | None => (0, 0)
    | Some s' =>
      let '(t, n) := count_params l s in
      let '(t', n') := total_counts ls' s' in
      (t + t', n + n')
    end
  end.

Definition trainable_params (b : Z) : Z :=
  fst (total_counts model (b :: input_shape)).
Definition non_trainable_params (b : Z) : Z :=
  snd (total_counts model (b :: input_shape)).
Definition total_params (b : Z) : Z :=
  trainable_params b + non_trainable_params b.

(** The table the notebook records as the output of [model.summary()]
    (columns Output Shape and Param #). *)
Definition recorded_summary : list (shape * Z) :=
  [ ([32; 32; 64], 1792); ([32; 32; 64], 256); ([32; 32; 64], 0);
    ([32; 32; 64], 36928); ([32; 32; 64], 256); ([16; 16; 64], 0);
    ([16; 16; 128], 73856); ([16; 16; 128], 512); ([16; 16; 128], 0);
    ([16; 16; 128], 147584); ([16; 16; 128], 512); ([8; 8; 128], 0);
    ([8; 8; 256], 295168); ([8; 8; 256], 1024); ([8; 8; 256], 0);
    ([8; 8; 256], 590080); ([8; 8; 256], 1024); ([8; 8; 256], 0);
    ([8; 8; 256], 590080); ([8; 8; 256], 1024); ([4; 4; 256], 0);
    ([4; 4; 512], 1180160); ([4; 4; 512], 2048); ([4; 4; 512], 0);
    ([4; 4; 512], 2359808); ([4; 4; 512], 2048); ([4; 4; 512], 0);
    ([4; 4; 512], 2359808); ([4; 4; 512], 2048); ([2; 2; 512], 0);
    ([2; 2; 512], 2359808); ([2; 2; 512], 2048); ([2; 2; 512], 0);
    ([2; 2; 512], 2359808); ([2; 2; 512], 2048); ([2; 2; 512], 0);
    ([2; 2; 512], 2359808); ([2; 2; 512], 2048); ([1; 1; 512], 0);
    ([1; 1; 512], 0); ([512], 0); ([512], 262656); ([512], 2048);
    ([512], 0); ([10], 5130) ].

End Network.

(** ** The last layer's forward pass

    [Dense(units, activation)] maps a feature vector [x] to
    [activation(dot(x, kernel) + bias)], the kernel holding one row per
    input feature and one column per unit.  Values are reals. *)

Module Forward.
Import Network.
Local Open Scope R_scope.

Definition sum (v : list R) : R := fold_right Rplus 0 v.

Definition softmax_R (z : list R) : list R :=
  let e := map exp z in
  map (fun x => x / sum e) e.

Definition relu_R (z : list R) : list R := map (Rmax 0) z.

Definition apply_activation (a : activation) (z : list R) : list R :=
  match a with
  | relu => relu_R z
  | softmax => softmax_R z
  end.

Definition dot (x : list R) (kernel : list (list R)) (j : nat) : R :=
  sum (map (fun '(xi, row) => xi * nth j row 0) (combine x kernel)).

Definition dense (units : Z) (act : activation)
    (kernel : list (list R)) (bias : list R) (x : list R) : list R :=
  apply_activation act
    (map (fun j => dot x kernel j + nth j bias 0) (seq 0 (Z.to_nat units))).

(** A batch through a dense layer: one output row per input row.  Any
    other layer is not evaluated here. *)
Definition call (l : layer) (kernel : list (list R)) (bias : list R)
    (batch : list (list R)) : option (list (list R)) :=
  match l with
  | Dense units act _ _ => Some (map (dense units act kernel bias) batch)
  | _ => None
  end.

End Forward.

(** ** Training

    [[
sgd = optimizers.SGD(lr=learning_rate, decay=lr_decay, momentum=0.9, nesterov=True)
model.compile(sgd,loss='categorical_crossentropy',metrics=['accuracy'])
history = model.fit_generator(train_datagen.flow(x_train, y_train, batch_size=batch_size),
                    steps_per_epoch=len(x_train) // batch_size, epochs=epochs,
                    validation_data=(x_test, y_test),callbacks=[reduce_lr])
    ]] *)

Module Training.
Import Hyper Schedule NumPy Augmentation.
Local Open Scope string_scope.

Record SGD : Type := {
  lr : Q;
  decay : Q;
  momentum : Q;
  nesterov : bool
}.

Definition sgd : SGD :=
  {| lr := learning_rate; decay := lr_decay; momentum := 9 # 10;
     nesterov := true |}.

Record compile_args : Type := {
  optimizer : SGD;
  loss : string;
  metrics : list string
}.

Definition compile : compile_args :=
  {| optimizer := sgd; loss := "categorical_crossentropy";
     metrics := ["accuracy"] |}.

(** [reduce_lr = keras.callbacks.LearningRateScheduler(lr_scheduler)] *)
Definition reduce_lr : Z -> Q := lr_scheduler.

Section Fit.
Context {A : Type} `{Dtype A} {Y : Type}.

(** [len(x)]: the extent of the first axis. *)
Definition len (x : ndarray4 A) : Z := Z.of_nat (length x).

(** [datagen.flow(x, y, batch_size=...)] *)
Record flow : Type := {
  datagen : ImageDataGenerator;
  flow_x : ndarray4 A;
  flow_y : Y;
  flow_batch_size : Z
}.

Record fit_generator_args : Type := {
  generator : flow;
  steps_per_epoch : Z;
  fit_epochs : Z;
  validation_data : ndarray4 A * Y;
  callbacks : list (Z -> Q)
}.

(** What the loop does, in order: a scheduler callback sets the
    optimizer's learning rate, a batch is drawn from the generator and
    trained on, the model is evaluated on the validation data. *)
Inductive event : Type :=
| SetLearningRate (epoch : Z) (rate : Q)
| TrainOnBatch (epoch step : Z) (source : flow)
| Evaluate (epoch : Z) (data : ndarray4 A * Y).

(** [range(n)] *)
Definition range (n : Z) : list Z := map Z.of_nat (seq 0 (Z.to_nat n)).

(** One epoch of [fit_generator]: the callbacks' [on_epoch_begin], then
    [steps_per_epoch] batches, then the validation pass. *)
Definition run_epoch (a : fit_generator_args) (epoch : Z) : list event :=
  map (fun schedule => SetLearningRate epoch (schedule epoch)) (callbacks a)
  ++ map (fun step => TrainOnBatch epoch step (generator a))
         (range (steps_per_epoch a))
  ++ [Evaluate epoch (validation_data a)].

Definition fit_generator (a : fit_generator_args) : list event :=
  flat_map (run_epoch a) (range (fit_epochs a)).

(** The notebook's data flow: the arrays given by [cifar10.load_data()]
    are standardised by [normalize]; the training arrays go through
    [train_datagen.flow], the evaluation arrays go to [validation_data]
    as they are. *)
Definition fit_call (raw_x_train raw_x_test : ndarray4 A)
    (y_train y_test : Y) : fit_generator_args :=
  let '(x_train, x_test) := normalize raw_x_train raw_x_test in
  {| generator := {| datagen := train_datagen; flow_x := x_train;
                     flow_y := y_train; flow_batch_size := batch_size |};
     steps_per_epoch := len x_train / batch_size;
     fit_epochs := epochs;
     validation_data := (x_test, y_test);
     callbacks := [reduce_lr] |}.

Definition is_batch_of (epoch : Z) (e : event) : bool :=
  match e with
  | TrainOnBatch epoch' _ _ => Z.eqb epoch epoch'
  | _ => false
  end.

Definition is_evaluate (e : event) : bool :=
  match e with
  | Evaluate _ _ => true
  | _ => false
  end.

End Fit.

End Training.

(** ** Export to Core ML

    [[
classes = ['airplane', 'automobile' ,'bird ','cat ','deer ','dog ','frog ','horse ','ship ','truck']
coreml_model = coremltools.converters.keras.convert(model, input_names=['image'],
    image_input_names='image', class_labels=[...])
    ]] *)

Module CoreML.
Local Open Scope string_scope.

Definition classes : list string :=
  ["airplane"; "automobile"; "bird "; "cat "; "deer "; "dog "; "frog ";
   "horse "; "ship "; "truck"].

Record convert_args : Type := {
  input_names : list string;
  image_input_names : string;
  class_labels : list string
}.

Definition convert : convert_args :=
  {| input_names := ["image"];
     image_input_names := "image";
     class_labels :=
       ["airplane"; "automobile"; "bird "; "cat "; "deer "; "dog ";
        "frog "; "horse "; "ship "; "truck"] |}.

(** [str.isspace] on one ASCII character. *)
Definition is_space (c : ascii) : bool :=
  let n := nat_of_ascii c in
  ((9 <=? n) && (n <=? 13) || (28 <=? n) && (n <=? 32))%nat.

(** [s.rstrip()], on the list of characters and on strings. *)
Fixpoint rstrip_chars (cs : list ascii) : list ascii :=
  match cs with
  | [] => []
  | c :: cs' =>
    match rstrip_chars cs' with
    | [] => if is_space c then [] else [c]
    | r => c :: r
    end
  end.

Definition rstrip (s : string) : string :=
  string_of_list_ascii (rstrip_chars (list_ascii_of_string s)).

(** The number of whitespace characters [rstrip] removes. *)
Definition trailing_whitespace (s : string) : nat :=
  (String.length s - String.length (rstrip s))%nat.

(** The ten CIFAR-10 class names. *)
Definition class_names : list string :=
  ["airplane"; "automobile"; "bird"; "cat"; "deer"; "dog"; "frog";
   "horse"; "ship"; "truck"].

(** The classifier's output for one image: the label of the largest
    probability, and the probabilities keyed by label, the [i]-th network
    output going with the [i]-th class label. *)
Definition class_probabilities {P : Type} (a : convert_args)
    (probabilities : list P) : list (string * P) :=
  combine (class_labels a) probabilities.

End CoreML.

(** ** One-hot labels

    [y_train = keras.utils.to_categorical(y_train, 10)]: a row of zeros per
    label, with [row[label] = 1].  As with any array index, a negative
    label counts from the end of the row and a label outside the row is an
    error; [num_classes] left at zero is taken from the largest label. *)

Module KerasUtils.
Local Open Scope Z_scope.

Definition set_one (num_classes y : Z) : option (list Q) :=
  let i := if y <? 0 then y + num_classes else y in
  if (0 <=? i) && (i <? num_classes)
  then Some (map (fun j => if Z.of_nat j =? i then 1%Q else 0%Q)
                 (seq 0 (Z.to_nat num_classes)))
  else None.

Fixpoint set_ones (num_classes : Z) (y : list Z) : option (list (list Q)) :=
  match y with
  | [] => Some []
  | c :: y' =>
    match set_one num_classes c, set_ones num_classes y' with
    | Some row, Some rows => Some (row :: rows)
    | _, _ => None
    end
  end.

Definition to_categorical (y : list Z) (num_classes : Z)
  : option (list (list Q)) :=
  let num_classes :=
    if num_classes =? 0
    then match y with
         | [] => None
         | c :: y' => Some (fold_left Z.max y' c + 1)
         end
    else Some num_classes in
  match num_classes with
  | None => None
  | Some n => if n <? 0 then None else set_ones n y
  end.

End KerasUtils.

(** ** A batch of augmented images

    [flow] transforms the images of a batch one after the other, each by
    its own call of [random_transform]. *)

Module AugmentationBatch.
Import Augmentation.

Fixpoint transform_batch (g : ImageDataGenerator) (rows cols : Q)
    (k : nat) : Rand (list transform) :=
  match k with
  | O => ret []
  | S k' =>
    t <- random_transform g rows cols ;;
    ts <- transform_batch g rows cols k' ;;
    ret (t :: ts)
  end.

(** The number of draws one image costs under [g]. *)
Definition draws_needed (g : ImageDataGenerator) : nat :=
  (if nonzero (rotation_range g) then 1 else 0)
  + (if nonzero (height_shift_range g) then 1 else 0)
  + (if nonzero (width_shift_range g) then 1 else 0)
  + (if nonzero (shear_range g) then 1 else 0)
  + (if nonzero (zoom_range g) then 2 else 0)
  + (if nonzero (channel_shift_range g) then 1 else 0)
  + (if horizontal_flip g then 1 else 0)
  + (if vertical_flip g then 1 else 0).

End AugmentationBatch.

(** ** Reading the training log and the classifier's output *)

Module Readout.
Import NumPy Training.

(** The learning rates set during a run, in order. *)
Definition rates_set {A Y : Type} (log : list (@event A Y)) : list Q :=
  flat_map (fun ev => match ev with
                      | SetLearningRate _ rate => [rate]
                      | _ => []
                      end) log.

Definition is_batch {A Y : Type} (ev : @event A Y) : bool :=
  match ev with
  | TrainOnBatch _ _ _ => true
  | _ => false
  end.

(** [d.get(key)] on the label-to-probability pairs. *)
Fixpoint get {P : Type} (d : list (string * P)) (key : string) : option P :=
  match d with
  | [] => None
  | (k, v) :: d' => if String.eqb k key then Some v else get d' key
  end.

End Readout.

(** * Theorems *)

(** ** The learning-rate schedule *)

Module ScheduleFacts.
Import Hyper Schedule.

Lemma half_pow_pos (k : Z) : 0 < (1 # 2) ^ k.
Proof. apply Qpower_0_lt. reflexivity. Qed.

Lemma lr_scheduler_pos (epoch : Z) : 0 < lr_scheduler epoch.
Proof.
  unfold lr_scheduler.
  apply Qmult_lt_0_compat; [reflexivity | apply half_pow_pos].
Qed.

(** The exponent moves by one exactly when a multiple of [lr_drop] is
    reached. *)
Lemma drop_index_succ (epoch : Z) :
  (0 <= epoch)%Z ->
  ((epoch + 1) / lr_drop =
   if ((epoch + 1) mod lr_drop =? 0) then epoch / lr_drop + 1
   else epoch / lr_drop)%Z.
Proof.
  intros Hpos. unfold lr_drop.
  pose proof (Z.div_mod epoch 20 ltac:(lia)) as He.
  pose proof (Z.mod_pos_bound epoch 20 ltac:(lia)) as Hb.
  destruct (Z.eqb_spec ((epoch + 1) mod 20) 0) as [Hz | Hnz].
  - assert (Hm : (epoch mod 20 = 19)%Z).
    { pose proof (Z.div_mod (epoch + 1) 20 ltac:(lia)). lia. }
    symmetry. apply (Z.div_unique _ _ _ 0); lia.
  - assert (Hm : (epoch mod 20 < 19)%Z).
    { destruct (Z.eq_dec (epoch mod 20) 19) as [E | E]; [|lia].
      exfalso. apply Hnz.
      symmetry. apply (Z.mod_unique_pos _ _ (epoch / 20 + 1)); lia. }
    symmetry. apply (Z.div_unique _ _ _ (epoch mod 20 + 1)); lia.
Qed.

Lemma lr_scheduler_succ (epoch : Z) :
  (0 <= epoch)%Z ->
  lr_scheduler (epoch + 1) ==
  if ((epoch + 1) mod lr_drop =? 0)%Z then lr_scheduler epoch / 2
  else lr_scheduler epoch.
Proof.
  intros Hpos. unfold lr_scheduler.
  rewrite (drop_index_succ epoch Hpos).
  destruct ((epoch + 1) mod lr_drop =? 0)%Z; [|reflexivity].
  rewrite Qpower_plus by discriminate.
  change ((1 # 2) ^ 1) with (1 # 2).
  field.
Qed.

End ScheduleFacts.

(** ** The training loop's event log *)

Module TrainingFacts.
Import Hyper Schedule NumPy Augmentation Training.

Lemma range_NoDup (n : Z) : NoDup (range n).
Proof.
  unfold range. apply NoDup_map_NoDup_ForallPairs.
  - intros x y _ _ Hxy. now apply Nat2Z.inj.
  - apply seq_NoDup.
Qed.

Lemma in_range (n e : Z) : In e (range n) <-> (0 <= e < n)%Z.
Proof.
  unfold range. rewrite in_map_iff. split.
  - intros [k [<- Hk]]. apply in_seq in Hk. lia.
  - intros He. exists (Z.to_nat e). split; [lia | apply in_seq; lia].
Qed.

Lemma range_length (n : Z) : length (range n) = Z.to_nat n.
Proof. unfold range. now rewrite length_map, length_seq. Qed.

Section Log.
Context {A : Type} `{Dtype A} {Y : Type}.
Implicit Types (a : @fit_generator_args A Y) (e : Z).

Lemma filter_none {T : Type} (p : T -> bool) (l : list T) :
  (forall x, In x l -> p x = false) -> filter p l = [].
Proof.
  induction l as [|x l IH]; intros Hp; [reflexivity|].
  simpl. rewrite (Hp x (or_introl eq_refl)). apply IH.
  intros y Hy. apply Hp. now right.
Qed.

Lemma filter_all {T : Type} (p : T -> bool) (l : list T) :
  (forall x, In x l -> p x = true) -> filter p l = l.
Proof.
  induction l as [|x l IH]; intros Hp; [reflexivity|].
  simpl. rewrite (Hp x (or_introl eq_refl)). f_equal. apply IH.
  intros y Hy. apply Hp. now right.
Qed.

(** The batches of one epoch, seen from epoch [e]. *)
Lemma batches_of_run_epoch a e e' :
  length (filter (is_batch_of e) (run_epoch a e')) =
  if (e =? e')%Z then Z.to_nat (steps_per_epoch a) else 0%nat.
Proof.
  unfold run_epoch. rewrite !filter_app, !length_app.
  rewrite (filter_none (is_batch_of e)
             (map (fun schedule => SetLearningRate e' (schedule e')) _)).
  2:{ intros x Hx. apply in_map_iff in Hx. now destruct Hx as [s [<- _]]. }
  simpl. rewrite Nat.add_0_r.
  destruct (e =? e')%Z eqn:E.
  - rewrite filter_all.
    + now rewrite length_map, range_length.
    + intros x Hx. apply in_map_iff in Hx. destruct Hx as [s [<- _]].
      exact E.
  - rewrite filter_none; [reflexivity|].
    intros x Hx. apply in_map_iff in Hx. destruct Hx as [s [<- _]].
    exact E.
Qed.

Lemma batches_of_epochs a e (l : list Z) :
  NoDup l ->
  length (filter (is_batch_of e) (flat_map (run_epoch a) l)) =
  if in_dec Z.eq_dec e l then Z.to_nat (steps_per_epoch a) else 0%nat.
Proof.
  induction 1 as [|e' l Hnotin Hnd IH]; [reflexivity|].
  cbn [flat_map]. rewrite filter_app, length_app, batches_of_run_epoch, IH.
  destruct (Z.eqb_spec e e') as [-> | Hne].
  - destruct (in_dec Z.eq_dec e' l) as [Hin | _]; [contradiction|].
    destruct (in_dec Z.eq_dec e' (e' :: l)) as [_ | Hn].
    + lia.
    + exfalso. apply Hn. now left.
  - destruct (in_dec Z.eq_dec e l) as [Hin | Hn];
      destruct (in_dec Z.eq_dec e (e' :: l)) as [Hin' | Hn'];
      try reflexivity.
    + exfalso. apply Hn'. now right.
    + exfalso. destruct Hin' as [E | Hin']; [now apply Hne | now apply Hn].
Qed.

(** Every epoch within the budget trains on [steps_per_epoch] batches. *)
Lemma batches_per_epoch a e :
  (0 <= e < fit_epochs a)%Z ->
  length (filter (is_batch_of e) (fit_generator a)) =
  Z.to_nat (steps_per_epoch a).
Proof.
  intros He. unfold fit_generator.
  rewrite batches_of_epochs by apply range_NoDup.
  destruct (in_dec Z.eq_dec e (range (fit_epochs a))) as [_ | Hn].
  - reflexivity.
  - exfalso. apply Hn. now apply in_range.
Qed.

(** Where each logged event comes from. *)
Lemma in_fit_generator a (ev : event) :
  In ev (fit_generator a) ->
  exists e, (0 <= e < fit_epochs a)%Z /\
    ((exists s, In s (callbacks a) /\ ev = SetLearningRate e (s e))
     \/ (exists step, (0 <= step < steps_per_epoch a)%Z
                      /\ ev = TrainOnBatch e step (generator a))
     \/ ev = Evaluate e (validation_data a)).
Proof.
  unfold fit_generator. rewrite in_flat_map.
  intros [e [He Hin]]. exists e. split; [now apply in_range|].
  unfold run_epoch in Hin. rewrite !in_app_iff, !in_map_iff in Hin.
  destruct Hin as [[s [<- Hs]] | [[step [<- Hs]] | [<- | []]]].
  - left. now exists s.
  - right. left. exists step. split; [now apply in_range | reflexivity].
  - right. now right.
Qed.

Lemma evaluations_of_epochs a (l : list Z) :
  length (filter is_evaluate (flat_map (run_epoch a) l)) = length l.
Proof.
  induction l as [|e l IH]; [reflexivity|].
  cbn [flat_map]. rewrite filter_app, length_app, IH.
  unfold run_epoch. rewrite !filter_app, !length_app.
  rewrite (filter_none is_evaluate (map (fun schedule => _) _)).
  2:{ intros x Hx. apply in_map_iff in Hx. now destruct Hx as [s [<- _]]. }
  rewrite (filter_none is_evaluate (map (fun step => _) _)).
  2:{ intros x Hx. apply in_map_iff in Hx. now destruct Hx as [s [<- _]]. }
  reflexivity.
Qed.

Lemma run_epoch_last a e :
  last (run_epoch a e) (Evaluate e (validation_data a))
  = Evaluate e (validation_data a).
Proof.
  unfold run_epoch. rewrite app_assoc. apply last_last.
Qed.

(** The fields of the notebook's call. *)
Lemma fit_call_fields (raw_x_train raw_x_test : ndarray4 A) (y_train y_test : Y) :
  fit_call raw_x_train raw_x_test y_train y_test =
  {| generator :=
       {| datagen := train_datagen;
          flow_x := fst (normalize raw_x_train raw_x_test);
          flow_y := y_train; flow_batch_size := batch_size |};
     steps_per_epoch := len raw_x_train / batch_size;
     fit_epochs := epochs;
     validation_data := (snd (normalize raw_x_train raw_x_test), y_test);
     callbacks := [reduce_lr] |}.
Proof.
  unfold fit_call, normalize, len, div_scalar, sub_scalar, map4. cbn [fst snd].
  now rewrite !length_map.
Qed.

End Log.

End TrainingFacts.

(** ** Elementwise structure of [normalize] *)

Module NumPyFacts.
Import NumPy.

Section Elementwise.
Context {A : Type} `{Dtype A}.
Implicit Types (t : ndarray4 A) (ix : index4).

Lemma item_map4 (f : A -> A) t ix :
  item (map4 f t) ix = option_map f (item t ix).
Proof.
  destruct ix as [[[i j] k] c]. unfold item, map4.
  rewrite nth_error_map. destruct (nth_error t i) as [ti|]; [|reflexivity].
  cbn [option_map]. rewrite nth_error_map.
  destruct (nth_error ti j) as [tij|]; [|reflexivity].
  cbn [option_map]. rewrite nth_error_map.
  destruct (nth_error tij k) as [tijk|]; [|reflexivity].
  cbn [option_map]. apply nth_error_map.
Qed.

Lemma map4_map4 (f g : A -> A) t :
  map4 g (map4 f t) = map4 (fun x => g (f x)) t.
Proof.
  unfold map4. rewrite map_map.
  apply map_ext; intros ti. rewrite map_map.
  apply map_ext; intros tij. rewrite map_map.
  apply map_ext; intros tijk. apply map_map.
Qed.

(** The two broadcast passes of [normalize] amount to one map. *)
Lemma normalize_map4 (X_train X_test : ndarray4 A) :
  normalize X_train X_test
  = (map4 (standardize (fitted_statistics X_train)) X_train,
     map4 (standardize (fitted_statistics X_train)) X_test).
Proof.
  unfold normalize, div_scalar, sub_scalar. now rewrite !map4_map4.
Qed.

(** Every indexed element is one of the elements that are reduced. *)
Lemma item_in_ravel t ix (x : A) : item t ix = Some x -> In x (ravel t).
Proof.
  destruct ix as [[[i j] k] c]. unfold item, ravel.
  destruct (nth_error t i) as [ti|] eqn:Ei; [|discriminate].
  destruct (nth_error ti j) as [tij|] eqn:Ej; [|discriminate].
  destruct (nth_error tij k) as [tijk|] eqn:Ek; [|discriminate].
  intros Ec.
  apply in_concat. exists tijk. split; [|eapply nth_error_In; eassumption].
  apply in_concat. exists tij. split; [|eapply nth_error_In; eassumption].
  apply in_concat. exists ti. split; eapply nth_error_In; eassumption.
Qed.

End Elementwise.

(** The number of reduced elements of an array of a given shape. *)
Lemma length_concat_uniform {T : Type} (n : nat) (ls : list (list T)) :
  Forall (fun l => length l = n) ls ->
  length (List.concat ls) = (length ls * n)%nat.
Proof.
  induction 1 as [|l ls Hl _ IH]; [reflexivity|].
  cbn [List.concat length]. rewrite length_app, IH, Hl. lia.
Qed.

Lemma Forall_concat {T : Type} (P : T -> Prop) (ls : list (list T)) :
  Forall (Forall P) ls -> Forall P (List.concat ls).
Proof.
  induction 1 as [|l ls Hl _ IH]; [constructor|].
  cbn [List.concat]. apply Forall_app. now split.
Qed.

Lemma size_of_shape {A : Type} (t : ndarray4 A) (n h w c : nat) :
  length t = n ->
  Forall (fun ti => length ti = h) t ->
  Forall (Forall (fun tij => length tij = w)) t ->
  Forall (Forall (Forall (fun px => length px = c))) t ->
  length (List.concat (List.concat (List.concat t))) = (n * h * w * c)%nat.
Proof.
  intros Hn Hh Hw Hc.
  rewrite (length_concat_uniform c).
  2:{ apply Forall_concat, Forall_concat, Hc. }
  rewrite (length_concat_uniform w) by apply Forall_concat, Hw.
  rewrite (length_concat_uniform h) by exact Hh.
  now rewrite Hn.
Qed.

Lemma two_channels_statistics :
  fitted_statistics two_channels = (1, 1)%R.
Proof.
  unfold fitted_statistics, np_std, np_mean, np_sum, size, sub_scalar,
    two_channels.
  cbn. f_equal; [lra|].
  replace ((0 + (0 - (0 + 0 + 2) / (1 + 1)) * (0 - (0 + 0 + 2) / (1 + 1))
            + (2 - (0 + 0 + 2) / (1 + 1)) * (2 - (0 + 0 + 2) / (1 + 1)))
           / (1 + 1))%R with 1%R by lra.
  apply sqrt_1.
Qed.

Lemma two_channels_channel_statistics :
  channel_statistics two_channels 0 = (0, 0)%R /\
  channel_statistics two_channels 1 = (2, 0)%R.
Proof.
  unfold channel_statistics, fitted_statistics, np_std, np_mean, np_sum,
    size, sub_scalar, two_channels.
  cbn. split; f_equal; try lra.
  - replace ((0 + (0 - (0 + 0) / 1) * (0 - (0 + 0) / 1)) / 1)%R with 0%R by lra.
    apply sqrt_0.
  - replace ((0 + (2 - (0 + 2) / 1) * (2 - (0 + 2) / 1)) / 1)%R with 0%R by lra.
    apply sqrt_0.
Qed.

(** [normalize] run on binary64 data. *)
Example normalize_f64 :
  normalize two_channels_f64 (one_pixel_f64 1)
  = ([[[[-0.99999990000000993; 0.99999990000000993]]]]%float,
     [[[[0; 0]]]]%float)
  /\ fitted_statistics [[[[0; 2]]]; [[[4; 6]]]]%float
     = (3, 2.2360679774997898)%float.
Proof. split; vm_compute; reflexivity. Qed.

End NumPyFacts.

(** ** The draws of [train_datagen] *)

Module AugmentationFacts.
Import Augmentation.

(** With the notebook's arguments, one image costs four draws. *)
Lemma random_transform_train_datagen (rows cols : Q) (tape : nat -> Q) (n : nat) :
  random_transform train_datagen rows cols tape n
  = ({| theta := - (15) + (15 - - (15)) * tape n;
        tx := (- (1 # 10) + ((1 # 10) - - (1 # 10)) * tape (S n)) * rows;
        ty := (- (1 # 10) + ((1 # 10) - - (1 # 10)) * tape (S (S n))) * cols;
        shear := 0; zx := 1; zy := 1; channel_shift := None;
        flip_horizontal := negb (Qle_bool (1 # 2) (tape (S (S (S n)))));
        flip_vertical := false |},
     S (S (S (S n)))).
Proof. reflexivity. Qed.

Lemma scaled_draw_bounds (r u : Q) :
  0 <= r -> 0 <= u -> u < 1 ->
  - r <= - r + (r - - r) * u /\ - r + (r - - r) * u <= r.
Proof.
  intros Hr Hu0 Hu1.
  assert (Hru : 0 <= r * u) by now apply Qmult_le_0_compat.
  assert (Hru' : r * u <= r).
  { setoid_replace r with (r * 1) at 2 by ring.
    rewrite !(Qmult_comm r).
    apply Qmult_le_compat_r; [now apply Qlt_le_weak | exact Hr]. }
  split; Lqa.lra.
Qed.

Lemma flip_iff (u : Q) : negb (Qle_bool (1 # 2) u) = true <-> u < 1 # 2.
Proof.
  rewrite negb_true_iff. split.
  - intros E. apply Qnot_le_lt. intros Hle.
    apply Qle_bool_iff in Hle. congruence.
  - intros Hlt. destruct (Qle_bool (1 # 2) u) eqn:E; [|reflexivity].
    apply Qle_bool_iff in E. exfalso. now apply (Qlt_not_le _ _ Hlt).
Qed.

End AugmentationFacts.

(** ** Softmax *)

Module ForwardFacts.
Import Forward.
Local Open Scope R_scope.

Lemma sum_map_div (s : R) (l : list R) :
  sum (map (fun x => x / s) l) = sum l / s.
Proof.
  induction l as [|x l IH]; cbn [map sum fold_right].
  - unfold Rdiv. ring.
  - fold (sum (map (fun x => x / s) l)). fold (sum l). rewrite IH.
    unfold Rdiv. ring.
Qed.

Lemma sum_exp_pos (z : list R) : z <> [] -> 0 < sum (map exp z).
Proof.
  induction z as [|x z IH]; [congruence|]. intros _.
  cbn [map sum fold_right]. fold (sum (map exp z)).
  pose proof (exp_pos x) as Hx.
  destruct z as [|y z].
  - cbn. lra.
  - assert (0 < sum (map exp (y :: z))) by (apply IH; discriminate). lra.
Qed.

Lemma softmax_sum (z : list R) : z <> [] -> sum (softmax_R z) = 1.
Proof.
  intros Hz. unfold softmax_R. cbv zeta. rewrite sum_map_div.
  pose proof (sum_exp_pos z Hz) as Hpos.
  field. lra.
Qed.

Lemma softmax_length (z : list R) : length (softmax_R z) = length z.
Proof. unfold softmax_R. cbv zeta. now rewrite !length_map. Qed.

Lemma softmax_pos (z : list R) (p : R) :
  In p (softmax_R z) -> 0 < p.
Proof.
  unfold softmax_R. cbv zeta. intros Hin.
  apply in_map_iff in Hin. destruct Hin as [e [<- He]].
  assert (Hz : z <> []).
  { destruct z; [destruct He | discriminate]. }
  apply in_map_iff in He. destruct He as [x [<- _]].
  apply Rdiv_lt_0_compat; [apply exp_pos | now apply sum_exp_pos].
Qed.

End ForwardFacts.

(** ** Steps per epoch *)

Module StepsFacts.
Import Hyper.

(** [n // batch_size] is the number of whole batches in [n] samples. *)
Lemma floor_batches (n : Z) :
  (batch_size * (n / batch_size) <= n < batch_size * (n / batch_size + 1))%Z.
Proof.
  unfold batch_size.
  pose proof (Z.div_mod n 128 ltac:(lia)).
  pose proof (Z.mod_pos_bound n 128 ltac:(lia)).
  lia.
Qed.

End StepsFacts.

(** ** Labels and probabilities *)

Module CoreMLFacts.

Lemma nth_error_combine {T U : Type} (l : list T) (l' : list U) (i : nat)
    (x : T) (y : U) :
  nth_error l i = Some x -> nth_error l' i = Some y ->
  nth_error (combine l l') i = Some (x, y).
Proof.
  revert l l'. induction i as [|i IH]; intros [|a l] [|b l'];
    cbn; try discriminate.
  - now intros [= ->] [= ->].
  - apply IH.
Qed.

End CoreMLFacts.

(** * The claims *)

Import Hyper Schedule NumPy Augmentation Network Training.

(** C1.  The stepped learning-rate schedule is
    [lr(epoch) = 0.1 * 0.5^(epoch // 20)] for every natural number
    [epoch] (0-indexed); [lr(0) = 0.1], [lr(19) = 0.1], [lr(20) = 0.05],
    [lr(40) = 0.025]; from one epoch to the next the rate is halved when
    the new epoch is a multiple of 20 and is unchanged otherwise; the
    binary64 evaluation gives the same four values; and in the training
    loop every epoch begins by setting the rate to [lr_scheduler epoch]. *)
Theorem lr_scheduler_stepped :
  (forall epoch : nat,
     lr_scheduler (Z.of_nat epoch)
     == (1 # 10) * (1 # 2) ^ Z.of_nat (epoch / 20)) /\
  (lr_scheduler 0 == 1 # 10 /\ lr_scheduler 19 == 1 # 10 /\
   lr_scheduler 20 == 5 # 100 /\ lr_scheduler 40 == 25 # 1000) /\
  (forall epoch : nat,
     lr_scheduler (Z.of_nat (S epoch))
     == if (S epoch mod 20 =? 0)%nat
        then lr_scheduler (Z.of_nat epoch) / 2
        else lr_scheduler (Z.of_nat epoch)) /\
  (forall epoch : nat,
     Qeq_bool (lr_scheduler (Z.of_nat (S epoch)))
              (lr_scheduler (Z.of_nat epoch))
     = negb (S epoch mod 20 =? 0)%nat) /\
  (lr_scheduler_f64 0 = 0.1%float /\ lr_scheduler_f64 19 = 0.1%float /\
   lr_scheduler_f64 20 = 0.05%float /\ lr_scheduler_f64 40 = 0.025%float) /\
  (forall (A : Type) (D : Dtype A) (Y : Type)
          (raw_x_train raw_x_test : ndarray4 A) (y_train y_test : Y)
          (epoch : Z),
     hd_error (run_epoch (fit_call raw_x_train raw_x_test y_train y_test)
                         epoch)
     = Some (SetLearningRate epoch (lr_scheduler epoch))).
Proof.
  assert (Hstep : forall epoch : nat,
     lr_scheduler (Z.of_nat (S epoch))
     == if (S epoch mod 20 =? 0)%nat
        then lr_scheduler (Z.of_nat epoch) / 2
        else lr_scheduler (Z.of_nat epoch)).
  { intros epoch.
    rewrite Nat2Z.inj_succ, <- Z.add_1_r.
    rewrite ScheduleFacts.lr_scheduler_succ by lia.
    replace ((Z.of_nat epoch + 1) mod lr_drop =? 0)%Z
      with (S epoch mod 20 =? 0)%nat; [reflexivity|].
    unfold lr_drop.
    replace (Z.of_nat epoch + 1)%Z with (Z.of_nat (S epoch)) by lia.
    change 20%Z with (Z.of_nat 20). rewrite <- Nat2Z.inj_mod.
    destruct (Nat.eqb_spec (S epoch mod 20) 0) as [E | E];
      destruct (Z.eqb_spec (Z.of_nat (S epoch mod 20)) 0) as [E' | E'];
      try reflexivity; lia. }
  split; [|split; [|split; [|split; [|split]]]].
  - intros epoch. unfold lr_scheduler, learning_rate, lr_drop.
    change 20%Z with (Z.of_nat 20). rewrite <- Nat2Z.inj_div. reflexivity.
  - repeat split; reflexivity.
  - exact Hstep.
  - intros epoch. specialize (Hstep epoch).
    pose proof (ScheduleFacts.lr_scheduler_pos (Z.of_nat epoch)) as Hpos.
    destruct (S epoch mod 20 =? 0)%nat; cbn [negb].
    + destruct (Qeq_bool _ _) eqn:E; [|reflexivity].
      apply Qeq_bool_eq in E. rewrite E in Hstep.
      exfalso.
      assert (Hhalf : lr_scheduler (Z.of_nat epoch) / 2
                      < lr_scheduler (Z.of_nat epoch)).
      { unfold Qdiv. setoid_replace (/ 2) with (1 # 2) by reflexivity. Lqa.lra. }
      rewrite <- Hstep in Hhalf. now apply Qlt_irrefl in Hhalf.
    + now apply Qeq_eq_bool.
  - repeat split; vm_compute; reflexivity.
  - intros A D Y raw_x_train raw_x_test y_train y_test epoch.
    rewrite TrainingFacts.fit_call_fields. reflexivity.
Qed.

(** C2.  [normalize] takes the mean and the standard deviation from the
    training set only and returns both sets transformed elementwise: at
    every index, the returned training (evaluation) array holds
    [(x - mean(train)) / (std(train) + 1e-7)] where [x] is the original
    training (evaluation) element at that index, and holds an element
    exactly where the original does. *)
Theorem normalize_elementwise {A : Type} {D : Dtype A}
    (X_train X_test : ndarray4 A) (ix : index4) :
  item (fst (normalize X_train X_test)) ix
  = option_map
      (fun x => div (sub x (np_mean X_train)) (add (np_std X_train) lit_1e_7))
      (item X_train ix)
  /\
  item (snd (normalize X_train X_test)) ix
  = option_map
      (fun x => div (sub x (np_mean X_train)) (add (np_std X_train) lit_1e_7))
      (item X_test ix).
Proof.
  rewrite NumPyFacts.normalize_map4. cbn [fst snd].
  rewrite !NumPyFacts.item_map4. split; reflexivity.
Qed.

(** C3.  The transform [normalize] applies is fitted on the training set
    alone and is a function of its inputs: with the same training set and
    two evaluation sets, the normalised training set is the same and both
    evaluation sets go through the one map fixed by the training
    statistics; an evaluation element's image does not depend on any other
    evaluation element; and equal inputs give equal outputs. *)
Theorem normalize_no_leak {A : Type} {D : Dtype A}
    (X_train X_test1 X_test2 : ndarray4 A) :
  fst (normalize X_train X_test1) = fst (normalize X_train X_test2) /\
  snd (normalize X_train X_test1)
  = map4 (standardize (fitted_statistics X_train)) X_test1 /\
  snd (normalize X_train X_test2)
  = map4 (standardize (fitted_statistics X_train)) X_test2 /\
  (forall ix : index4,
     item X_test1 ix = item X_test2 ix ->
     item (snd (normalize X_train X_test1)) ix
     = item (snd (normalize X_train X_test2)) ix) /\
  (forall X_train' X_test' : ndarray4 A,
     X_train = X_train' -> X_test1 = X_test' ->
     normalize X_train X_test1 = normalize X_train' X_test').
Proof.
  rewrite !NumPyFacts.normalize_map4. cbn [fst snd].
  repeat split.
  - intros ix Hix. rewrite !NumPyFacts.item_map4. now rewrite Hix.
  - intros X_train' X_test' -> ->.
    now rewrite NumPyFacts.normalize_map4.
Qed.

Lemma normalize_no_leak_witness :
  item (snd (normalize two_channels_f64 (one_pixel_f64 1))) (0, 0, 0, 0)%nat
  = item (snd (normalize two_channels_f64 [[[[1; 7]]]; [[[3; 4]]]]%float))
         (0, 0, 0, 0)%nat.
Proof.
  apply (proj1 (proj2 (proj2 (proj2
    (normalize_no_leak two_channels_f64 (one_pixel_f64 1)
                       [[[[1; 7]]]; [[[3; 4]]]]%float))))).
  reflexivity.
Defined.

(** C10.  [normalize] reduces over all four axes at once: the mean is
    the sum of every element divided by the number of elements (for an
    array of shape (n, h, w, c), [n * h * w * c]), and one scalar mean and
    one scalar deviation serve at every index, whatever the channel; they
    are not the statistics of the element's own channel, as the training
    set [two_channels] shows. *)
Theorem normalize_reduces_all_axes :
  (forall (A : Type) (D : Dtype A) (X_train X_test : ndarray4 A),
     np_mean X_train
     = div (fold_left add (List.concat (List.concat (List.concat X_train))) zero)
           (of_count (length (List.concat (List.concat (List.concat X_train)))))
     /\
     (forall (ix : index4) (x : A),
        item X_train ix = Some x ->
        In x (List.concat (List.concat (List.concat X_train)))) /\
     exists mean std : A,
       forall (i j k c : nat),
         item (fst (normalize X_train X_test)) (i, j, k, c)
         = option_map (fun x => div (sub x mean) (add std lit_1e_7))
                      (item X_train (i, j, k, c)) /\
         item (snd (normalize X_train X_test)) (i, j, k, c)
         = option_map (fun x => div (sub x mean) (add std lit_1e_7))
                      (item X_test (i, j, k, c))) /\
  (forall (A : Type) (X_train : ndarray4 A) (n h w c : nat),
     length X_train = n ->
     Forall (fun ti => length ti = h) X_train ->
     Forall (Forall (fun tij => length tij = w)) X_train ->
     Forall (Forall (Forall (fun px => length px = c))) X_train ->
     size X_train = (n * h * w * c)%nat) /\
  (fitted_statistics two_channels = (1, 1)%R /\
   channel_statistics two_channels 0 = (0, 0)%R /\
   channel_statistics two_channels 1 = (2, 0)%R /\
   item (fst (normalize two_channels two_channels)) (0, 0, 0, 0)%nat
   = Some ((0 - 1) / (1 + 1 / 10000000))%R /\
   Some ((0 - 1) / (1 + 1 / 10000000))%R
   <> Some (standardize (channel_statistics two_channels 0) 0%R)).
Proof.
  split; [|split].
  - intros A D X_train X_test. split; [reflexivity|]. split.
    + intros ix x Hx. exact (NumPyFacts.item_in_ravel X_train ix x Hx).
    + exists (np_mean X_train), (np_std X_train). intros i j k c.
      rewrite NumPyFacts.normalize_map4. cbn [fst snd].
      rewrite !NumPyFacts.item_map4. split; reflexivity.
  - intros A X_train n h w c Hn Hh Hw Hc.
    exact (NumPyFacts.size_of_shape X_train n h w c Hn Hh Hw Hc).
  - pose proof NumPyFacts.two_channels_statistics as Hs.
    destruct NumPyFacts.two_channels_channel_statistics as [H0 H1].
    repeat split; try assumption.
    + rewrite NumPyFacts.normalize_map4. cbn [fst].
      rewrite NumPyFacts.item_map4, Hs. reflexivity.
    + rewrite H0. unfold standardize. cbn.
      intros E. injection E as E.
      assert (Hne : ((0 - 1) / (1 + 1 / 10000000) < 0)%R).
      { apply Rdiv_neg_pos; lra. }
      assert (Hz : ((0 - 0) / (0 + 1 / 10000000) = 0)%R).
      { unfold Rdiv. lra. }
      lra.
Qed.

Lemma normalize_reduces_all_axes_witness :
  size two_channels_f64 = (1 * 1 * 1 * 2)%nat.
Proof.
  apply (proj1 (proj2 normalize_reduces_all_axes) float two_channels_f64);
    repeat constructor.
Defined.

(** C4.  For every image that [train_datagen] transforms, exactly four
    draws are made: the rotation angle is [-15 + 30 * u] degrees for a
    draw [u] of the uniform sampler on [[0, 1)], hence within +-15 degrees,
    and every angle of [[-15, 15)] is reached; the row and column shifts
    are [(-0.1 + 0.2 * u) * extent] for draws of their own, hence within
    +-10% of the extent; the image is mirrored horizontally exactly when a
    further draw is below 0.5; there is no shear, zoom, channel shift or
    vertical mirroring.  In the training run, batches come from
    [train_datagen.flow] only, and each validation pass evaluates the
    arrays [(x_test, y_test)] as [normalize] returned them. *)
Theorem augmentation_draws :
  (forall (tape : nat -> Q) (n : nat) (rows cols : Q),
     (forall k : nat, 0 <= tape k /\ tape k < 1) ->
     0 <= rows -> 0 <= cols ->
     let t := fst (random_transform train_datagen rows cols tape n) in
     snd (random_transform train_datagen rows cols tape n) = (n + 4)%nat /\
     theta t == - (15) + 30 * tape n /\
     (- (15) <= theta t /\ theta t < 15) /\
     tx t == (- (1 # 10) + (2 # 10) * tape (n + 1)%nat) * rows /\
     (- ((1 # 10) * rows) <= tx t /\ tx t <= (1 # 10) * rows) /\
     ty t == (- (1 # 10) + (2 # 10) * tape (n + 2)%nat) * cols /\
     (- ((1 # 10) * cols) <= ty t /\ ty t <= (1 # 10) * cols) /\
     (flip_horizontal t = true <-> tape (n + 3)%nat < 1 # 2) /\
     shear t == 0 /\ zx t == 1 /\ zy t == 1 /\
     channel_shift t = None /\ flip_vertical t = false) /\
  (forall (angle : Q) (n : nat) (rows cols : Q),
     - (15) <= angle -> angle < 15 ->
     exists u : Q,
       (0 <= u /\ u < 1) /\
       theta (fst (random_transform train_datagen rows cols (fun _ => u) n))
       == angle) /\
  (forall (A : Type) (D : Dtype A) (Y : Type)
          (raw_x_train raw_x_test : ndarray4 A) (y_train y_test : Y)
          (ev : event),
     In ev (fit_generator (fit_call raw_x_train raw_x_test y_train y_test)) ->
     match ev with
     | SetLearningRate _ _ => True
     | TrainOnBatch _ _ source =>
         datagen source = train_datagen /\
         flow_x source = fst (normalize raw_x_train raw_x_test)
     | Evaluate _ data =>
         data = (snd (normalize raw_x_train raw_x_test), y_test)
     end).
Proof.
  split; [|split].
  - intros tape n rows cols Htape Hrows Hcols t. subst t.
    rewrite AugmentationFacts.random_transform_train_datagen.
    cbn [fst snd theta tx ty shear zx zy channel_shift flip_horizontal
         flip_vertical].
    replace (n + 1)%nat with (S n) by lia.
    replace (n + 2)%nat with (S (S n)) by lia.
    replace (n + 3)%nat with (S (S (S n))) by lia.
    destruct (Htape n) as [Hn0 Hn1].
    destruct (Htape (S n)) as [Hx0 Hx1].
    destruct (Htape (S (S n))) as [Hy0 Hy1].
    assert (Hshift : forall u extent, 0 <= u -> u < 1 -> 0 <= extent ->
              - ((1 # 10) * extent)
              <= (- (1 # 10) + ((1 # 10) - - (1 # 10)) * u) * extent /\
              (- (1 # 10) + ((1 # 10) - - (1 # 10)) * u) * extent
              <= (1 # 10) * extent).
    { intros u extent Hu0 Hu1 He.
      destruct (AugmentationFacts.scaled_draw_bounds (1 # 10) u
                  ltac:(discriminate) Hu0 Hu1) as [Hlo Hhi].
      split.
      - setoid_replace (- ((1 # 10) * extent)) with (- (1 # 10) * extent)
          by ring.
        now apply Qmult_le_compat_r.
      - now apply Qmult_le_compat_r. }
    split; [lia|].
    split; [ring|].
    split; [split; Lqa.lra|].
    split; [ring|].
    split; [now apply Hshift|].
    split; [ring|].
    split; [now apply Hshift|].
    split; [apply AugmentationFacts.flip_iff|].
    repeat split; reflexivity.
  - intros angle n rows cols Hlo Hhi.
    exists ((angle + 15) / 30). split; [split|].
    + apply Qle_shift_div_l; [reflexivity | Lqa.lra].
    + apply Qlt_shift_div_r; [reflexivity | Lqa.lra].
    + rewrite AugmentationFacts.random_transform_train_datagen.
      cbn [fst theta]. field.
  - intros A D Y raw_x_train raw_x_test y_train y_test ev Hin.
    apply TrainingFacts.in_fit_generator in Hin.
    rewrite TrainingFacts.fit_call_fields in Hin.
    cbn [fit_epochs callbacks generator steps_per_epoch validation_data] in Hin.
    destruct Hin as [e [_ [[s [_ ->]] | [[step [_ ->]] | ->]]]].
    + exact I.
    + split; reflexivity.
    + reflexivity.
Qed.

Lemma augmentation_draws_witness :
  let t := fst (random_transform train_datagen 32 32 (fun _ => 1 # 4) 0%nat) in
  (- (15) <= theta t /\ theta t < 15) /\
  (flip_horizontal t = true <-> (1 # 4) < 1 # 2).
Proof.
  pose proof (proj1 augmentation_draws (fun _ => 1 # 4) 0%nat 32 32) as H.
  cbv zeta in H.
  destruct H as (_ & _ & Hangle & _ & _ & _ & _ & Hflip & _).
  - intros k. split; [discriminate | reflexivity].
  - discriminate.
  - discriminate.
  - cbv zeta. split; [exact Hangle | exact Hflip].
Defined.

(** C5.  For an input of shape (1, 32, 32, 3) (and any batch size) the
    output has shape (1, 10); every convolution uses same-padding and
    keeps the spatial extents of whatever it is fed; every pooling layer
    halves them, the five pooled shapes being 16, 8, 4, 2 and 1 across;
    flatten yields 512 features; the last layer is a 10-unit dense layer
    with softmax, whose output on one feature vector has 10 positive
    components that sum to 1, whatever the weights and the features. *)
Theorem forward_shape_and_softmax :
  output_shape model [1; 32; 32; 3]%Z = Some [1; 10]%Z /\
  (forall b : Z, output_shape model (b :: input_shape) = Some [b; 10]%Z) /\
  (forall l : layer, In l model ->
     match l with
     | Conv2D filters _ _ pad _ _ =>
         pad = same /\
         forall b h w c : Z,
           compute_output_shape l [b; h; w; c] = Some [b; h; w; filters]
     | MaxPooling2D _ _ =>
         forall b h w c : Z,
           compute_output_shape l [b; h; w; c]
           = Some [b; h / 2; w / 2; c]%Z
     | _ => True
     end) /\
  shapes_after is_pool model [1; 32; 32; 3]%Z
  = [ [1; 16; 16; 64]; [1; 8; 8; 128]; [1; 4; 4; 256]; [1; 2; 2; 512];
      [1; 1; 1; 512] ]%Z /\
  shapes_after is_flatten model [1; 32; 32; 3]%Z = [ [1; 512]%Z ] /\
  last model BatchNormalization = Dense 10 softmax None "predictions" /\
  (forall (kernel : list (list R)) (bias features : list R),
     exists y : list R,
       Forward.call (last model BatchNormalization) kernel bias [features]
       = Some [y] /\
       length y = 10%nat /\
       Forward.sum y = 1%R /\
       (forall p : R, In p y -> (0 < p)%R)).
Proof.
  split; [reflexivity|].
  split; [intros b; reflexivity|].
  split.
  { intros l Hin.
    assert (Hhalf : forall h : Z, ((h - 2 + 1 + 2 - 1) / 2 = h / 2)%Z).
    { intros h. f_equal. lia. }
    assert (Hsame : forall h : Z, ((h + 1 - 1) / 1 = h)%Z).
    { intros h. rewrite Z.div_1_r. lia. }
    unfold model, blocks, block1, block2, block3, block4, block5, head in Hin.
    cbn [List.concat app In] in Hin.
    repeat (destruct Hin as [<- | Hin];
            [first [ exact I
                   | split; [reflexivity|];
                     intros b h w c; cbn [compute_output_shape];
                     unfold conv_output_length; now rewrite !Hsame
                   | intros b h w c; cbn [compute_output_shape];
                     unfold conv_output_length; now rewrite !Hhalf ]|]).
    destruct Hin. }
  split; [reflexivity|].
  split; [reflexivity|].
  split; [reflexivity|].
  intros kernel bias features.
  change (last model BatchNormalization)
    with (Dense 10 softmax None "predictions").
  cbn [Forward.call map].
  eexists. split; [reflexivity|].
  unfold Forward.dense, Forward.apply_activation.
  assert (Hlen : length (map (fun j => (Forward.dot features kernel j
                                        + nth j bias 0)%R)
                             (seq 0 (Z.to_nat 10))) = 10%nat).
  { now rewrite length_map, length_seq. }
  split; [now rewrite ForwardFacts.softmax_length|].
  split.
  - apply ForwardFacts.softmax_sum. intros E. rewrite E in Hlen. discriminate.
  - intros p Hp. exact (ForwardFacts.softmax_pos _ p Hp).
Qed.

Lemma forward_shape_and_softmax_witness :
  compute_output_shape
    (Conv2D 64 (3, 3)%Z relu same (l2 weight_decay) "block1_conv1")
    [1; 32; 32; 3]%Z
  = Some [1; 32; 32; 64]%Z.
Proof.
  refine (proj2 (proj1 (proj2 (proj2 forward_shape_and_softmax))
                   (Conv2D 64 (3, 3)%Z relu same (l2 weight_decay)
                           "block1_conv1") _) 1 32 32 3)%Z.
  left. reflexivity.
Defined.

(** C6.  The architecture has 15,001,418 parameters in total, 9,472 of
    them non-trainable (the moving mean and variance of the batch
    normalisation layers) and 14,991,946 trainable, whatever the batch
    size; the per-layer output shapes and counts computed from the layer
    arguments are the rows the notebook records for [model.summary()]. *)
Theorem parameter_counts :
  (forall b : Z,
     total_params b = 15001418%Z /\
     non_trainable_params b = 9472%Z /\
     trainable_params b = 14991946%Z) /\
  summary model [1; 32; 32; 3]%Z = recorded_summary /\
  fold_right Z.add 0%Z (map snd (summary model [1; 32; 32; 3]%Z))
  = 15001418%Z /\
  (forall (l : layer) (s : shape),
     is_conv l = false -> l <> BatchNormalization ->
     snd (count_params l s) = 0%Z) /\
  (forall s : shape,
     count_params BatchNormalization s
     = (2 * last s 0, 2 * last s 0)%Z).
Proof.
  split; [intros b; repeat split; reflexivity|].
  split; [vm_compute; reflexivity|].
  split; [vm_compute; reflexivity|].
  split.
  - intros l s Hconv Hbn.
    destruct l as [f [kh kw] a p r n | | | | |]; try reflexivity.
    congruence.
  - intros s. reflexivity.
Qed.

Lemma parameter_counts_witness :
  snd (count_params (Dropout (5 # 10)) [1; 1; 1; 512]%Z) = 0%Z.
Proof.
  apply (proj1 (proj2 (proj2 (proj2 parameter_counts)))).
  - reflexivity.
  - discriminate.
Defined.

(** C7 as stated fails: in block 2 the second convolution carries the
    weight decay too, so "on the first convolution only" does not hold
    of every block. *)
Lemma tabulated_pattern_fails : ~ tabulated_pattern blocks.
Proof.
  intros [Hl2 _].
  unfold blocks in Hl2.
  apply Forall_inv_tail, Forall_inv in Hl2.
  unfold l2_on_first_conv_only in Hl2. cbn in Hl2. discriminate.
Qed.

(** C7, amended.  L2 weight decay with coefficient 5e-4 is applied to
    the first convolution only in block 1 and to every convolution in
    blocks 2 to 5; batch normalisation follows every convolution; dropout
    (rate 0.3 in block 1, 0.4 in blocks 2 to 5) follows the first
    convolution's batch normalisation in blocks 1 and 2 and that of each
    of the first two convolutions in blocks 3 to 5.  The blocks hold 2, 2,
    3, 3 and 3 convolutions and make up the model up to its dense head. *)
Theorem regularization_pattern :
  weight_decay == 5 / 10000 /\
  l2_on_first_conv_only block1 /\
  Forall l2_on_every_conv [block2; block3; block4; block5] /\
  Forall (fun b => Forall (eq true) (batch_norm_follows b)) blocks /\
  map dropout_after blocks
  = [ [Some (3 # 10); None];
      [Some (4 # 10); None];
      [Some (4 # 10); Some (4 # 10); None];
      [Some (4 # 10); Some (4 # 10); None];
      [Some (4 # 10); Some (4 # 10); None] ] /\
  map (fun b => length (segments b)) blocks = [2; 2; 3; 3; 3]%nat /\
  blocks = [block1; block2; block3; block4; block5] /\
  model = List.concat blocks ++ head.
Proof.
  split; [reflexivity|].
  split; [reflexivity|].
  split; [repeat constructor|].
  split; [repeat constructor|].
  repeat split; reflexivity.
Qed.

(** C8.  The optimizer is SGD with learning rate 0.1, decay 1e-6, momentum
    0.9 and Nesterov acceleration, minimising categorical cross-entropy;
    the batch size is 128; the run has 250 epochs of
    [floor(len(x_train) / 128)] batches each (390 for 50000 training
    images), all drawn from [train_datagen.flow] over the normalised
    training arrays; and each epoch ends with one evaluation, on the
    evaluation arrays as [normalize] returned them. *)
Theorem training_configuration {A : Type} {D : Dtype A} {Y : Type}
    (raw_x_train raw_x_test : ndarray4 A) (y_train y_test : Y) (epoch : Z) :
  (0 <= epoch < 250)%Z ->
  let a := fit_call raw_x_train raw_x_test y_train y_test in
  let log := fit_generator a in
  (lr sgd == 1 # 10 /\ decay sgd == 1 # 1000000 /\ momentum sgd == 9 # 10 /\
   nesterov sgd = true /\ optimizer compile = sgd /\
   loss compile = "categorical_crossentropy"%string /\
   metrics compile = ["accuracy"%string]) /\
  (batch_size = 128%Z /\ flow_batch_size (generator a) = 128%Z /\
   datagen (generator a) = train_datagen /\
   flow_x (generator a) = fst (normalize raw_x_train raw_x_test)) /\
  (steps_per_epoch a = (len raw_x_train / 128)%Z /\
   (128 * steps_per_epoch a <= len raw_x_train
    < 128 * (steps_per_epoch a + 1))%Z /\
   (len raw_x_train = 50000%Z -> steps_per_epoch a = 390%Z)) /\
  fit_epochs a = 250%Z /\
  length (filter (is_batch_of epoch) log) = Z.to_nat (steps_per_epoch a) /\
  (forall (e step : Z) (source : flow),
     In (TrainOnBatch e step source) log -> source = generator a) /\
  length (filter is_evaluate log) = 250%nat /\
  (forall (e : Z) (data : ndarray4 A * Y),
     In (Evaluate e data) log ->
     data = (snd (normalize raw_x_train raw_x_test), y_test)) /\
  last (run_epoch a epoch) (SetLearningRate 0 0)
  = Evaluate epoch (snd (normalize raw_x_train raw_x_test), y_test).
Proof.
  intros Hepoch a log. subst log a.
  rewrite TrainingFacts.fit_call_fields.
  set (a := {| generator := _ |}).
  split; [repeat split; reflexivity|].
  split; [repeat split; reflexivity|].
  split.
  { cbn [steps_per_epoch a]. split; [reflexivity|]. split.
    - exact (StepsFacts.floor_batches (len raw_x_train)).
    - intros ->. reflexivity. }
  split; [reflexivity|].
  split; [now apply TrainingFacts.batches_per_epoch|].
  split.
  { intros e step source Hin.
    apply TrainingFacts.in_fit_generator in Hin.
    destruct Hin as [e' [_ [[s [_ E]] | [[step' [_ E]] | E]]]];
      try discriminate.
    now injection E as _ _ ->. }
  split.
  { unfold fit_generator. rewrite TrainingFacts.evaluations_of_epochs.
    now rewrite TrainingFacts.range_length. }
  split.
  { intros e data Hin.
    apply TrainingFacts.in_fit_generator in Hin.
    destruct Hin as [e' [_ [[s [_ E]] | [[step' [_ E]] | E]]]];
      try discriminate.
    now injection E as _ ->. }
  unfold run_epoch. rewrite app_assoc. apply last_last.
Qed.

Lemma training_configuration_witness :
  (0 <= 249 < 250)%Z /\
  steps_per_epoch
    (fit_call (repeat [] (Z.to_nat 50000)) two_channels_f64 tt tt) = 390%Z.
Proof.
  split; [lia|].
  refine (proj2 (proj2 (proj1 (proj2 (proj2
    (training_configuration (repeat [] (Z.to_nat 50000)) two_channels_f64
                            tt tt 249 _)))))
    _).
  - lia.
  - unfold len. rewrite repeat_length. apply Z2Nat.id. lia.
Defined.

(** C9.  The export is given an ordered list of exactly 10 class labels,
    the list bound to [classes]; stripped of trailing whitespace they are
    airplane, automobile, bird, cat, deer, dog, frog, horse, ship, truck in
    that order; the labels at indices 2 to 8 end in exactly one space and
    those at indices 0, 1 and 9 in none; and the [i]-th probability of the
    classifier's output is keyed by the [i]-th label supplied. *)
Theorem class_labels_exported :
  CoreML.class_labels CoreML.convert = CoreML.classes /\
  length (CoreML.class_labels CoreML.convert) = 10%nat /\
  map CoreML.rstrip (CoreML.class_labels CoreML.convert)
  = CoreML.class_names /\
  map CoreML.trailing_whitespace (CoreML.class_labels CoreML.convert)
  = [0; 0; 1; 1; 1; 1; 1; 1; 1; 0]%nat /\
  (forall (i : nat) (label : string),
     nth_error (CoreML.class_labels CoreML.convert) i = Some label ->
     (label = CoreML.rstrip label ++ " ")%string <-> (2 <= i <= 8)%nat) /\
  (forall (P : Type) (probabilities : list P) (i : nat) (p : P),
     length probabilities = 10%nat ->
     nth_error probabilities i = Some p ->
     exists label : string,
       nth_error (CoreML.class_labels CoreML.convert) i = Some label /\
       nth_error (CoreML.class_probabilities CoreML.convert probabilities) i
       = Some (label, p)).
Proof.
  split; [reflexivity|].
  split; [reflexivity|].
  split; [reflexivity|].
  split; [reflexivity|].
  split.
  - intros i label Hi.
    do 10 (destruct i as [|i];
           [cbn in Hi; injection Hi as <-; cbn;
            split; [intros E; first [discriminate E | lia]
                   | intros Hr; first [reflexivity | lia]] |]).
    destruct i; discriminate Hi.
  - intros P probabilities i p Hlen Hp.
    assert (Hi : (i < 10)%nat).
    { rewrite <- Hlen. apply nth_error_Some. congruence. }
    destruct (nth_error (CoreML.class_labels CoreML.convert) i)
      as [label|] eqn:El.
    + exists label. split; [reflexivity|].
      now apply CoreMLFacts.nth_error_combine.
    + exfalso. apply nth_error_None in El. cbn in El. lia.
Qed.

Lemma class_labels_exported_witness :
  nth_error
    (CoreML.class_probabilities CoreML.convert
       [0; 0; 0; 1; 0; 0; 0; 0; 0; 0]%Z) 3
  = Some ("cat "%string, 1%Z).
Proof.
  destruct (proj2 (proj2 (proj2 (proj2 (proj2 class_labels_exported))))
              Z [0; 0; 0; 1; 0; 0; 0; 0; 0; 0]%Z 3%nat 1%Z
              eq_refl eq_refl) as [label [Hl Hp]].
  cbn in Hl. injection Hl as <-. exact Hp.
Defined.

(** * Further properties *)

(** ** [normalize] over the reals *)

Module RealFacts.
Import NumPy.
Local Open Scope R_scope.

Lemma ravel_map4 {A : Type} `{Dtype A} (f : A -> A) (t : ndarray4 A) :
  ravel (map4 f t) = map f (ravel t).
Proof.
  unfold ravel, map4. now rewrite !concat_map.
Qed.

Lemma fold_left_Rplus (l : list R) (a : R) :
  fold_left Rplus l a = a + Forward.sum l.
Proof.
  revert a. induction l as [|x l IH]; intros a; cbn.
  - lra.
  - rewrite IH. fold (Forward.sum l). lra.
Qed.

Lemma np_sum_R (t : ndarray4 R) : np_sum t = Forward.sum (ravel t).
Proof.
  unfold np_sum. cbn [add zero Dtype_R]. rewrite fold_left_Rplus. lra.
Qed.

Lemma np_mean_R (t : ndarray4 R) :
  np_mean t = Forward.sum (ravel t) / INR (length (ravel t)).
Proof.
  unfold np_mean, size. rewrite np_sum_R. reflexivity.
Qed.

Lemma sum_map_affine (m s : R) (l : list R) :
  Forward.sum (map (fun x => (x - m) / s) l)
  = (Forward.sum l - INR (length l) * m) / s.
Proof.
  induction l as [|x l IH].
  - cbn. unfold Rdiv. ring.
  - cbn [map Forward.sum fold_right length].
    fold (Forward.sum (map (fun x => (x - m) / s) l)). fold (Forward.sum l).
    rewrite IH, S_INR. unfold Rdiv. ring.
Qed.

Lemma sum_map_scaled_squares (m s : R) (l : list R) :
  Forward.sum (map (fun d => d * d)
                 (map (fun y => y - 0) (map (fun x => (x - m) / s) l)))
  = Forward.sum (map (fun d => d * d) (map (fun x => x - m) l)) / (s * s).
Proof.
  induction l as [|x l IH].
  - cbn. unfold Rdiv. ring.
  - cbn [map Forward.sum fold_right]. 
    fold (Forward.sum (map (fun d => d * d)
            (map (fun y => y - 0) (map (fun x => (x - m) / s) l)))).
    fold (Forward.sum (map (fun d => d * d) (map (fun x => x - m) l))).
    rewrite IH. unfold Rdiv. rewrite Rinv_mult. ring.
Qed.

(** The statistics of a training set, spelled out. *)
Lemma np_std_R (t : ndarray4 R) :
  np_std t
  = sqrt (Forward.sum (map (fun d => d * d)
                         (map (fun x => x - np_mean t) (ravel t)))
          / INR (length (ravel t))).
Proof.
  unfold np_std. cbv zeta. cbn [sqrt mul sub Dtype_R].
  rewrite np_mean_R. unfold sub_scalar. rewrite !ravel_map4.
  cbn [sub Dtype_R]. now rewrite !length_map.
Qed.

Lemma np_std_nonneg (t : ndarray4 R) : 0 <= np_std t.
Proof. rewrite np_std_R. apply sqrt_pos. Qed.

Lemma denominator_pos (t : ndarray4 R) : 0 < np_std t + 1 / 10000000.
Proof. pose proof (np_std_nonneg t). lra. Qed.

Lemma size_nonzero_INR (t : ndarray4 R) :
  size t <> 0%nat -> INR (length (ravel t)) <> 0.
Proof. intros Hn. apply not_0_INR. exact Hn. Qed.

Lemma normalized_ravel (X_train X : ndarray4 R) :
  ravel (map4 (standardize (fitted_statistics X_train)) X)
  = map (fun x => (x - np_mean X_train) / (np_std X_train + 1 / 10000000))
        (ravel X).
Proof. rewrite ravel_map4. reflexivity. Qed.

End RealFacts.

Module RealStatistics.
Import NumPy RealFacts.
Local Open Scope R_scope.

(** The mean of a standardised training set. *)
Lemma normalized_mean_zero (X_train : ndarray4 R) :
  size X_train <> 0%nat ->
  np_mean (map4 (standardize (fitted_statistics X_train)) X_train) = 0.
Proof.
  intros Hn. pose proof (size_nonzero_INR X_train Hn) as Hnz.
  rewrite np_mean_R, normalized_ravel, sum_map_affine, length_map.
  rewrite (np_mean_R X_train).
  set (S := Forward.sum (ravel X_train)) in *.
  set (n := INR (length (ravel X_train))) in *.
  replace (S - n * (S / n)) with 0 by (field; exact Hnz).
  unfold Rdiv. ring.
Qed.

(** Sums do not depend on the order of the summands. *)
Lemma sum_Permutation (l l' : list R) :
  Permutation l l' -> Forward.sum l = Forward.sum l'.
Proof.
  induction 1 as [| x l l' _ IH | x y l | l l' l'' _ IH1 _ IH2].
  - reflexivity.
  - cbn. fold (Forward.sum l). fold (Forward.sum l'). now rewrite IH.
  - cbn. fold (Forward.sum l). lra.
  - now rewrite IH1.
Qed.

Lemma concat_Permutation {T : Type} (l l' : list (list T)) :
  Permutation l l' ->
  Permutation (List.concat l) (List.concat l').
Proof.
  intros Hp. rewrite <- (map_id l), <- (map_id l'), <- !flat_map_concat_map.
  now apply Permutation_flat_map.
Qed.

Lemma ravel_Permutation (t t' : ndarray4 R) :
  Permutation t t' ->
  Permutation (ravel t) (ravel t').
Proof.
  intros Hp. unfold ravel.
  apply concat_Permutation, concat_Permutation, concat_Permutation, Hp.
Qed.

Lemma fitted_statistics_Permutation (t t' : ndarray4 R) :
  Permutation t t' ->
  fitted_statistics t = fitted_statistics t'.
Proof.
  intros Hp. apply ravel_Permutation in Hp.
  assert (Hmean : np_mean t = np_mean t').
  { rewrite !np_mean_R.
    now rewrite (sum_Permutation _ _ Hp), (Permutation_length Hp). }
  unfold fitted_statistics. rewrite !np_std_R, Hmean.
  rewrite (Permutation_length Hp).
  f_equal. f_equal. f_equal.
  apply sum_Permutation.
  now apply Permutation_map, Permutation_map.
Qed.

(** A training set whose elements all equal [c]. *)
Lemma constant_statistics (t : ndarray4 R) (c : R) :
  size t <> 0%nat -> Forall (fun x => x = c) (ravel t) ->
  fitted_statistics t = (c, 0).
Proof.
  intros Hn Hc. pose proof (size_nonzero_INR t Hn) as Hnz.
  assert (Hsum : forall l, Forall (fun x => x = c) l ->
                           Forward.sum l = INR (length l) * c).
  { induction 1 as [|x l -> _ IH].
    - cbn. ring.
    - cbn [Forward.sum fold_right length]. fold (Forward.sum l).
      rewrite IH, S_INR. ring. }
  assert (Hmean : np_mean t = c).
  { rewrite np_mean_R, (Hsum _ Hc). field. exact Hnz. }
  unfold fitted_statistics. rewrite np_std_R, Hmean. f_equal.
  assert (Hdev : Forward.sum (map (fun d => d * d)
                                (map (fun x => x - c) (ravel t))) = 0).
  { clear Hsum Hmean Hnz Hn. induction Hc as [|x l -> _ IH].
    - reflexivity.
    - cbn [map Forward.sum fold_right].
      fold (Forward.sum (map (fun d => d * d) (map (fun x => x - c) l))).
      rewrite IH. ring. }
  rewrite Hdev. unfold Rdiv. rewrite Rmult_0_l. apply sqrt_0.
Qed.

End RealStatistics.

Import RealFacts RealStatistics.

(** X1.  Over the reals, the normalised training set of a non-empty
    training set has mean 0 and standard deviation [s / (s + 1e-7)], [s]
    being the deviation of the raw training set: never negative, always
    below 1, and within 1e-7 of 1 as soon as [s >= 1]. *)
Theorem normalized_training_statistics (X_train X_test : ndarray4 R) :
  size X_train <> 0%nat ->
  np_mean (fst (normalize X_train X_test)) = 0%R /\
  np_std (fst (normalize X_train X_test))
  = (np_std X_train / (np_std X_train + 1 / 10000000))%R /\
  (0 <= np_std (fst (normalize X_train X_test)) < 1)%R /\
  ((1 <= np_std X_train)%R ->
   (1 - np_std (fst (normalize X_train X_test)) <= 1 / 10000000)%R).
Proof.
  intros Hn. pose proof (size_nonzero_INR X_train Hn) as Hnz.
  pose proof (np_std_nonneg X_train) as Hs.
  rewrite NumPyFacts.normalize_map4. cbn [fst].
  pose proof (normalized_mean_zero X_train Hn) as Hmean.
  assert (Hstd :
    np_std (map4 (standardize (fitted_statistics X_train)) X_train)
    = (np_std X_train / (np_std X_train + 1 / 10000000))%R).
  { rewrite np_std_R, Hmean, normalized_ravel, length_map.
    rewrite sum_map_scaled_squares.
    set (s := (np_std X_train + 1 / 10000000)%R) in *.
    assert (Hspos : (0 < s)%R) by (unfold s; lra).
    replace (Forward.sum
               (map (fun d => d * d)
                  (map (fun x => x - np_mean X_train) (ravel X_train)))
             / (s * s) / INR (length (ravel X_train)))%R
      with (Forward.sum
              (map (fun d => d * d)
                 (map (fun x => x - np_mean X_train) (ravel X_train)))
            / INR (length (ravel X_train)) / (s * s))%R
      by (field; split; [lra | exact Hnz]).
    rewrite sqrt_div_alt by nra.
    rewrite <- np_std_R. rewrite sqrt_square by lra. reflexivity. }
  split; [exact Hmean|]. split; [exact Hstd|].
  rewrite Hstd.
  assert (Hpos : (0 < np_std X_train + 1 / 10000000)%R) by lra.
  split; [split|].
  - apply Rmult_le_pos; [exact Hs|]. left. now apply Rinv_0_lt_compat.
  - apply (Rmult_lt_reg_r (np_std X_train + 1 / 10000000)); [exact Hpos|].
    unfold Rdiv at 1. rewrite Rmult_assoc, Rinv_l by lra. lra.
  - intros H1.
    replace (1 - np_std X_train / (np_std X_train + 1 / 10000000))%R
      with ((1 / 10000000) / (np_std X_train + 1 / 10000000))%R
      by (field; lra).
    apply (Rmult_le_reg_r (np_std X_train + 1 / 10000000)); [exact Hpos|].
    unfold Rdiv at 1. rewrite Rmult_assoc, Rinv_l by lra. nra.
Qed.

Lemma normalized_training_statistics_witness :
  np_mean (fst (normalize two_channels two_channels)) = 0%R.
Proof.
  apply (normalized_training_statistics two_channels two_channels).
  discriminate.
Defined.

(** X2.  Over the reals and for a non-empty training set, normalisation
    never divides by zero and keeps the order of values: of two
    evaluation elements the smaller stays the smaller, and distinct
    values stay distinct. *)
Theorem normalize_order_preserving (X_train X_test : ndarray4 R)
    (ix iy : index4) (x y : R) :
  size X_train <> 0%nat ->
  item X_test ix = Some x -> item X_test iy = Some y ->
  (0 < np_std X_train + 1 / 10000000)%R /\
  exists x' y' : R,
    item (snd (normalize X_train X_test)) ix = Some x' /\
    item (snd (normalize X_train X_test)) iy = Some y' /\
    ((x < y)%R <-> (x' < y')%R) /\
    (x = y <-> x' = y').
Proof.
  intros _ Hx Hy.
  pose proof (denominator_pos X_train) as Hpos.
  split; [exact Hpos|].
  rewrite NumPyFacts.normalize_map4. cbn [snd].
  rewrite !NumPyFacts.item_map4, Hx, Hy. cbn [option_map].
  eexists. eexists. split; [reflexivity|]. split; [reflexivity|].
  unfold standardize, fitted_statistics. cbn [fst snd div sub add lit_1e_7 Dtype_R].
  set (m := np_mean X_train). set (s := (np_std X_train + 1 / 10000000)%R) in *.
  assert (Hinv : (0 < / s)%R) by now apply Rinv_0_lt_compat.
  unfold Rdiv. split; split.
  - intros Hlt. apply Rmult_lt_compat_r; lra.
  - intros Hlt. apply Rmult_lt_reg_r in Hlt; lra.
  - intros ->. reflexivity.
  - intros E. apply Rmult_eq_reg_r in E; lra.
Qed.

Lemma normalize_order_preserving_witness :
  (0 < np_std two_channels + 1 / 10000000)%R.
Proof.
  apply (normalize_order_preserving two_channels two_channels
           (0, 0, 0, 0)%nat (0, 0, 0, 1)%nat 0%R 2%R).
  - discriminate.
  - reflexivity.
  - reflexivity.
Defined.

(** X3.  Over the reals, a non-empty training set whose elements all
    equal [c] has mean [c] and deviation 0; only the 1e-7 keeps the
    division defined: every training element is sent to 0 and an
    evaluation element [x] to [(x - c) * 10^7]. *)
Theorem normalize_constant_training_set (X_train X_test : ndarray4 R)
    (c : R) :
  size X_train <> 0%nat ->
  Forall (fun x => x = c) (ravel X_train) ->
  np_mean X_train = c /\ np_std X_train = 0%R /\
  (forall (ix : index4) (x : R),
     item X_train ix = Some x ->
     item (fst (normalize X_train X_test)) ix = Some 0%R) /\
  (forall (ix : index4) (x : R),
     item X_test ix = Some x ->
     item (snd (normalize X_train X_test)) ix
     = Some ((x - c) * 10000000)%R).
Proof.
  intros Hn Hc.
  pose proof (constant_statistics X_train c Hn Hc) as Hstat.
  assert (Hm : np_mean X_train = c) by (now injection Hstat).
  assert (Hs : np_std X_train = 0%R) by (now injection Hstat).
  split; [exact Hm|]. split; [exact Hs|].
  rewrite NumPyFacts.normalize_map4. cbn [fst snd].
  split; intros ix x Hx; rewrite NumPyFacts.item_map4, Hx; cbn [option_map];
    f_equal; rewrite Hstat; unfold standardize;
    cbn [fst snd div sub add lit_1e_7 Dtype_R].
  - assert (Hxc : x = c).
    { apply NumPyFacts.item_in_ravel in Hx.
      rewrite Forall_forall in Hc. exact (Hc x Hx). }
    rewrite Hxc. unfold Rdiv. ring.
  - field.
Qed.

Lemma normalize_constant_training_set_witness :
  item (snd (normalize [[[[5; 5]]]]%R two_channels)) (0, 0, 0, 1)%nat
  = Some ((2 - 5) * 10000000)%R.
Proof.
  refine (proj2 (proj2 (proj2
    (normalize_constant_training_set [[[[5; 5]]]]%R two_channels 5%R _ _)))
    (0, 0, 0, 1)%nat 2%R _).
  - discriminate.
  - repeat constructor.
  - reflexivity.
Defined.

(** X4.  Over the reals, the order of the training samples does not
    matter: a permuted training set fits the same mean and deviation and
    so normalises every evaluation set identically. *)
Theorem normalize_sample_order_irrelevant
    (X_train X_train' X_test : ndarray4 R) :
  Permutation X_train X_train' ->
  np_mean X_train = np_mean X_train' /\
  np_std X_train = np_std X_train' /\
  snd (normalize X_train X_test) = snd (normalize X_train' X_test).
Proof.
  intros Hp.
  pose proof (fitted_statistics_Permutation X_train X_train' Hp) as Hstat.
  assert (Hm : np_mean X_train = np_mean X_train').
  { unfold fitted_statistics in Hstat. now injection Hstat. }
  assert (Hs : np_std X_train = np_std X_train').
  { unfold fitted_statistics in Hstat. now injection Hstat. }
  split; [exact Hm|]. split; [exact Hs|].
  rewrite !NumPyFacts.normalize_map4. cbn [snd]. now rewrite Hstat.
Qed.

Lemma normalize_sample_order_irrelevant_witness :
  snd (normalize [[[[1]]]; [[[3]]]]%R two_channels)
  = snd (normalize [[[[3]]]; [[[1]]]]%R two_channels).
Proof.
  apply (normalize_sample_order_irrelevant
           [[[[1]]]; [[[3]]]]%R [[[[3]]]; [[[1]]]]%R two_channels).
  apply perm_swap.
Defined.

(** ** [normalize] on binary64: the empty training set *)

Module FloatFacts.
Import NumPy.

Lemma sub_nan (x : float) : PrimFloat.sub x nan = nan.
Proof.
  apply Prim2SF_inj. rewrite sub_spec.
  change (Prim2SF nan) with S754_nan.
  unfold SF64sub, SFsub. now destruct (Prim2SF x).
Qed.

Lemma div_nan (x : float) : PrimFloat.div x nan = nan.
Proof.
  apply Prim2SF_inj. rewrite div_spec.
  change (Prim2SF nan) with S754_nan.
  unfold SF64div, SFdiv. now destruct (Prim2SF x).
Qed.

Lemma empty_statistics : fitted_statistics (A := float) [] = (nan, nan).
Proof. vm_compute. reflexivity. Qed.

End FloatFacts.

(** X5.  On binary64 an empty training set makes both statistics NaN
    (0/0), and every element of the normalised evaluation set is then NaN,
    whatever its value. *)
Theorem normalize_empty_training_set (X_test : ndarray4 float)
    (ix : index4) (x : float) :
  item X_test ix = Some x ->
  np_mean (A := float) [] = nan /\ np_std (A := float) [] = nan /\
  fst (normalize [] X_test) = [] /\
  item (snd (normalize [] X_test)) ix = Some nan.
Proof.
  intros Hx.
  pose proof FloatFacts.empty_statistics as Hstat.
  split; [vm_compute; reflexivity|]. split; [vm_compute; reflexivity|].
  rewrite NumPyFacts.normalize_map4. cbn [fst snd].
  split; [reflexivity|].
  rewrite NumPyFacts.item_map4, Hx. cbn [option_map]. f_equal.
  rewrite Hstat. unfold standardize. cbn [fst snd div sub add Dtype_f64].
  rewrite FloatFacts.sub_nan. apply FloatFacts.div_nan.
Qed.

Lemma normalize_empty_training_set_witness :
  item (snd (normalize [] two_channels_f64)) (0, 0, 0, 1)%nat = Some nan.
Proof.
  apply (normalize_empty_training_set two_channels_f64 (0, 0, 0, 1)%nat
                                      2%float).
  reflexivity.
Defined.

(** ** The schedule over all epochs *)

Module ScheduleOrder.
Import Hyper Schedule.

Lemma half_pow_le_1 (k : Z) : (0 <= k)%Z -> (1 # 2) ^ k <= 1.
Proof.
  intros Hk.
  assert (Hone : (1 # 2) ^ k * 2 ^ k == 1).
  { rewrite <- Qmult_power.
    setoid_replace ((1 # 2) * 2) with 1 by reflexivity. apply Qpower_1. }
  assert (Htwo : 1 <= 2 ^ k) by (apply Qpower_1_le; [discriminate | exact Hk]).
  rewrite <- Hone.
  setoid_replace ((1 # 2) ^ k) with ((1 # 2) ^ k * 1) at 1 by ring.
  apply Qmult_le_l; [apply ScheduleFacts.half_pow_pos | exact Htwo].
Qed.

Lemma half_pow_antitone (a b : Z) :
  (a <= b)%Z -> (1 # 2) ^ b <= (1 # 2) ^ a.
Proof.
  intros Hab. replace b with (a + (b - a))%Z by ring.
  rewrite Qpower_plus by discriminate.
  setoid_replace ((1 # 2) ^ a) with ((1 # 2) ^ a * 1) at 2 by ring.
  apply Qmult_le_l; [apply ScheduleFacts.half_pow_pos|].
  apply half_pow_le_1. lia.
Qed.

Lemma lr_scheduler_antitone (e e' : Z) :
  (e <= e')%Z -> lr_scheduler e' <= lr_scheduler e.
Proof.
  intros Hle. unfold lr_scheduler.
  apply Qmult_le_l; [reflexivity|].
  apply half_pow_antitone. unfold lr_drop. apply Z.div_le_mono; lia.
Qed.

End ScheduleOrder.



(** ** The whole run *)

Module RunFacts.
Import Hyper Schedule NumPy Augmentation Training Readout.

Section Run.
Context {A : Type} `{Dtype A} {Y : Type}.
Implicit Types (a : @fit_generator_args A Y).

Lemma rates_set_app (l1 l2 : list (@event A Y)) :
  rates_set (l1 ++ l2) = rates_set l1 ++ rates_set l2.
Proof. unfold rates_set. apply flat_map_app. Qed.

Lemma rates_set_run_epoch a (e : Z) :
  rates_set (run_epoch a e) = map (fun schedule => schedule e) (callbacks a).
Proof.
  unfold run_epoch. rewrite !rates_set_app.
  assert (Hcb : forall cs : list (Z -> Q),
            rates_set (map (fun schedule => SetLearningRate (A := A) (Y := Y)
                                              e (schedule e)) cs)
            = map (fun schedule => schedule e) cs).
  { induction cs as [|c cs IH]; [reflexivity|]. cbn. f_equal. exact IH. }
  assert (Hb : forall steps : list Z,
            rates_set (map (fun step => TrainOnBatch e step (generator a))
                           steps) = []).
  { induction steps as [|s steps IH]; [reflexivity | exact IH]. }
  rewrite Hcb, Hb. cbn. now rewrite app_nil_r.
Qed.

Lemma rates_set_epochs a (l : list Z) :
  rates_set (flat_map (run_epoch a) l)
  = flat_map (fun e => map (fun schedule => schedule e) (callbacks a)) l.
Proof.
  induction l as [|e l IH]; [reflexivity|].
  cbn [flat_map]. now rewrite rates_set_app, rates_set_run_epoch, IH.
Qed.

Lemma batches_of_one_epoch a (e : Z) :
  length (filter is_batch (run_epoch a e)) = Z.to_nat (steps_per_epoch a).
Proof.
  unfold run_epoch. rewrite !filter_app, !length_app.
  rewrite (TrainingFacts.filter_none is_batch (map (fun schedule => _) _)).
  2:{ intros x Hx. apply in_map_iff in Hx. now destruct Hx as [s [<- _]]. }
  rewrite (TrainingFacts.filter_all is_batch (map (fun step => _) _)).
  2:{ intros x Hx. apply in_map_iff in Hx. now destruct Hx as [s [<- _]]. }
  cbn. rewrite length_map, TrainingFacts.range_length. lia.
Qed.

Lemma batches_of_all_epochs a (l : list Z) :
  length (filter is_batch (flat_map (run_epoch a) l))
  = (length l * Z.to_nat (steps_per_epoch a))%nat.
Proof.
  induction l as [|e l IH]; [reflexivity|].
  cbn [flat_map length]. rewrite filter_app, length_app, IH.
  rewrite batches_of_one_epoch. lia.
Qed.

Lemma length_of_all_epochs a (l : list Z) :
  length (flat_map (run_epoch a) l)
  = (length l * (length (callbacks a) + Z.to_nat (steps_per_epoch a) + 1))%nat.
Proof.
  induction l as [|e l IH]; [reflexivity|].
  cbn [flat_map length]. rewrite length_app, IH.
  unfold run_epoch. rewrite !length_app, !length_map.
  rewrite TrainingFacts.range_length. cbn [length]. lia.
Qed.

End Run.

(** [range] counts upwards. *)
Lemma nth_error_range (n : Z) (i : nat) (e : Z) :
  nth_error (range n) i = Some e -> e = Z.of_nat i.
Proof.
  unfold range. rewrite nth_error_map.
  destruct (nth_error (seq 0 (Z.to_nat n)) i) as [k|] eqn:E; [|discriminate].
  intros [= <-]. f_equal.
  assert (Hi : (i < length (seq 0 (Z.to_nat n)))%nat).
  { apply nth_error_Some. congruence. }
  rewrite length_seq in Hi.
  pose proof (@seq_nth (Z.to_nat n) 0%nat i 0%nat Hi) as Hn.
  rewrite (nth_error_nth _ _ 0%nat E) in Hn. lia.
Qed.

End RunFacts.

Import Readout.

(** X7.  Over the notebook's run the learning rates set are, in order,
    [lr_scheduler 0, ..., lr_scheduler 249]: 250 of them, one per epoch,
    starting at 0.1, never increasing along the run and ending at
    [0.1 / 2^12]. *)
Theorem rates_over_the_run {A : Type} {D : Dtype A} {Y : Type}
    (raw_x_train raw_x_test : ndarray4 A) (y_train y_test : Y) :
  let rates :=
    rates_set (fit_generator
                 (fit_call raw_x_train raw_x_test y_train y_test)) in
  rates = map lr_scheduler (range 250) /\
  length rates = 250%nat /\
  hd_error rates = Some (lr_scheduler 0) /\
  nth_error rates 249 = Some (lr_scheduler 249) /\
  lr_scheduler 249 == (1 # 10) / 4096 /\
  (forall (i j : nat) (r r' : Q),
     (i <= j)%nat -> nth_error rates i = Some r ->
     nth_error rates j = Some r' ->
     r' <= r /\ (1 # 10) / 4096 <= r' /\ r <= 1 # 10).
Proof.
  intros rates.
  assert (Hrates : rates = map lr_scheduler (range 250)).
  { subst rates. unfold fit_generator.
    rewrite RunFacts.rates_set_epochs, TrainingFacts.fit_call_fields.
    cbn [callbacks fit_epochs]. unfold reduce_lr, epochs.
    generalize (range 250). intros l.
    induction l as [|e l IH]; [reflexivity|].
    cbn [flat_map map app]. now f_equal. }
  split; [exact Hrates|].
  rewrite Hrates.
  split; [now rewrite length_map, TrainingFacts.range_length|].
  split; [reflexivity|]. split; [reflexivity|]. split; [reflexivity|].
  intros i j r r' Hij Hi Hj.
  rewrite nth_error_map in Hi, Hj.
  destruct (nth_error (range 250) i) as [e|] eqn:Ei; [|discriminate].
  destruct (nth_error (range 250) j) as [e'|] eqn:Ej; [|discriminate].
  injection Hi as <-. injection Hj as <-.
  assert (He' : (0 <= e' < 250)%Z).
  { apply TrainingFacts.in_range. eapply nth_error_In. exact Ej. }
  apply RunFacts.nth_error_range in Ei, Ej. subst e e'.
  split; [|split].
  - apply ScheduleOrder.lr_scheduler_antitone. lia.
  - apply Qle_trans with (lr_scheduler 249).
    + apply Qle_bool_imp_le. reflexivity.
    + apply ScheduleOrder.lr_scheduler_antitone. lia.
  - apply Qle_trans with (lr_scheduler 0).
    + apply ScheduleOrder.lr_scheduler_antitone. lia.
    + apply Qle_bool_imp_le. reflexivity.
Qed.

Lemma rates_over_the_run_witness :
  lr_scheduler 40 <= lr_scheduler 19.
Proof.
  pose proof (rates_over_the_run two_channels_f64 two_channels_f64 tt tt)
    as Hrun.
  cbv zeta in Hrun.
  destruct Hrun as (Hrates & _ & _ & _ & _ & Horder).
  refine (proj1 (Horder 19%nat 40%nat _ _ _ _ _)).
  - lia.
  - rewrite Hrates. reflexivity.
  - rewrite Hrates. reflexivity.
Defined.

(** X8.  The notebook's run trains on [250 * (len(x_train) // 128)]
    batches in all (97,500 for 50000 training images), and its log holds
    one rate setting, the batches and one evaluation per epoch. *)
Theorem batches_over_the_run {A : Type} {D : Dtype A} {Y : Type}
    (raw_x_train raw_x_test : ndarray4 A) (y_train y_test : Y) :
  let log :=
    fit_generator (fit_call raw_x_train raw_x_test y_train y_test) in
  let steps := (len raw_x_train / 128)%Z in
  Z.of_nat (length (filter is_batch log)) = (250 * steps)%Z /\
  Z.of_nat (length log) = (250 * (steps + 2))%Z /\
  (len raw_x_train = 50000%Z ->
   Z.of_nat (length (filter is_batch log)) = 97500%Z).
Proof.
  intros log steps. subst log steps. unfold fit_generator.
  rewrite RunFacts.batches_of_all_epochs, RunFacts.length_of_all_epochs.
  rewrite TrainingFacts.fit_call_fields.
  cbn [fit_epochs steps_per_epoch callbacks length].
  rewrite TrainingFacts.range_length.
  unfold epochs, batch_size.
  assert (Hsteps : (0 <= len raw_x_train / 128)%Z).
  { apply Z.div_pos; [unfold len; lia | lia]. }
  split; [lia|]. split; [lia|].
  intros Hlen. rewrite Hlen in *. 
  change (50000 / 128)%Z with 390%Z. lia.
Qed.

Lemma batches_over_the_run_witness :
  Z.of_nat (length (filter is_batch
    (fit_generator
       (fit_call (repeat [] (Z.to_nat 50000)) two_channels_f64 tt tt))))
  = 97500%Z.
Proof.
  refine (proj2 (proj2
    (batches_over_the_run (repeat [] (Z.to_nat 50000)) two_channels_f64
                          tt tt)) _).
  unfold len. rewrite repeat_length. apply Z2Nat.id. lia.
Defined.

(** ** Draws of any generator *)

Module DrawFacts.
Import Augmentation AugmentationBatch.

Lemma random_transform_draws (g : ImageDataGenerator) (rows cols : Q)
    (tape : nat -> Q) (n : nat) :
  snd (random_transform g rows cols tape n) = (n + draws_needed g)%nat.
Proof.
  unfold random_transform, draws_needed.
  destruct (nonzero (rotation_range g)), (nonzero (height_shift_range g)),
    (nonzero (width_shift_range g)), (nonzero (shear_range g)),
    (nonzero (zoom_range g)), (nonzero (channel_shift_range g)),
    (horizontal_flip g), (vertical_flip g);
    cbv beta iota zeta delta [bind uniform random ret snd]; lia.
Qed.

Lemma random_transform_local (g : ImageDataGenerator) (rows cols : Q)
    (tape tape' : nat -> Q) (n : nat) :
  (forall k : nat, (n <= k < n + draws_needed g)%nat -> tape k = tape' k) ->
  fst (random_transform g rows cols tape n)
  = fst (random_transform g rows cols tape' n).
Proof.
  unfold random_transform, draws_needed.
  destruct (nonzero (rotation_range g)), (nonzero (height_shift_range g)),
    (nonzero (width_shift_range g)), (nonzero (shear_range g)),
    (nonzero (zoom_range g)), (nonzero (channel_shift_range g)),
    (horizontal_flip g), (vertical_flip g);
    cbv beta iota zeta delta [bind uniform random ret fst snd];
    intros Htape; rewrite ?Htape by lia; reflexivity.
Qed.

End DrawFacts.

Module BatchFacts.
Import Augmentation AugmentationBatch.

Lemma transform_batch_succ (g : ImageDataGenerator) (rows cols : Q)
    (k : nat) (tape : nat -> Q) (n : nat) :
  transform_batch g rows cols (S k) tape n
  = (fst (random_transform g rows cols tape n)
       :: fst (transform_batch g rows cols k tape
                 (snd (random_transform g rows cols tape n))),
     snd (transform_batch g rows cols k tape
            (snd (random_transform g rows cols tape n)))).
Proof.
  cbn [transform_batch]. unfold bind at 1.
  destruct (random_transform g rows cols tape n) as [t n1].
  unfold bind. cbn [fst snd].
  destruct (transform_batch g rows cols k tape n1) as [ts n2].
  reflexivity.
Qed.

Lemma transform_batch_draws (g : ImageDataGenerator) (rows cols : Q)
    (k : nat) (tape : nat -> Q) (n : nat) :
  snd (transform_batch g rows cols k tape n)
  = (n + k * draws_needed g)%nat.
Proof.
  revert n. induction k as [|k IH]; intros n.
  - cbn. lia.
  - rewrite transform_batch_succ. cbn [snd].
    rewrite IH, DrawFacts.random_transform_draws. lia.
Qed.

Lemma transform_batch_nth (g : ImageDataGenerator) (rows cols : Q)
    (k : nat) (tape : nat -> Q) (n i : nat) :
  (i < k)%nat ->
  nth_error (fst (transform_batch g rows cols k tape n)) i
  = Some (fst (random_transform g rows cols tape
                 (n + i * draws_needed g)%nat)).
Proof.
  revert n i. induction k as [|k IH]; intros n i Hi; [lia|].
  rewrite transform_batch_succ. cbn [fst].
  destruct i as [|i].
  - cbn. do 3 f_equal. lia.
  - cbn [nth_error]. rewrite IH by lia.
    rewrite DrawFacts.random_transform_draws. do 3 f_equal. lia.
Qed.

End BatchFacts.

Import AugmentationBatch.





(** ** Looking probabilities up by label *)

Module LookupFacts.
Import Readout.

Lemma get_absent {P : Type} (keys : list string) (vals : list P)
    (key : string) :
  ~ In key keys -> get (combine keys vals) key = None.
Proof.
  revert vals. induction keys as [|k keys IH]; intros vals Hnotin;
    [reflexivity|].
  destruct vals as [|v vals]; [reflexivity|].
  cbn [combine get].
  destruct (String.eqb_spec k key) as [-> | Hne].
  - exfalso. apply Hnotin. now left.
  - apply IH. intros Hin. apply Hnotin. now right.
Qed.

Lemma get_combine {P : Type} (keys : list string) (vals : list P)
    (i : nat) (key : string) (v : P) :
  NoDup keys ->
  nth_error keys i = Some key -> nth_error vals i = Some v ->
  get (combine keys vals) key = Some v.
Proof.
  revert vals i. induction keys as [|k keys IH]; intros vals i Hnd Hk Hv.
  - destruct i; discriminate.
  - destruct vals as [|v0 vals]; [destruct i; discriminate|].
    inversion Hnd as [|? ? Hnotin Hnd']; subst.
    cbn [combine get].
    destruct i as [|i]; cbn [nth_error] in Hk, Hv.
    + injection Hk as ->. injection Hv as ->.
      now rewrite String.eqb_refl.
    + destruct (String.eqb_spec k key) as [-> | Hne].
      * exfalso. apply Hnotin. eapply nth_error_In. exact Hk.
      * eapply IH; eassumption.
Qed.

(** Distinctness of the entries of a list of literals. *)
Ltac distinct_literals :=
  repeat (constructor;
          [ cbn; intros Hin;
            repeat (destruct Hin as [Hin | Hin]; [discriminate Hin|]);
            exact Hin |]);
  constructor.

Lemma class_labels_distinct :
  NoDup (CoreML.class_labels CoreML.convert) /\
  NoDup (map CoreML.rstrip (CoreML.class_labels CoreML.convert)).
Proof.
  split.
  - unfold CoreML.convert. cbn [CoreML.class_labels]. distinct_literals.
  - change (map CoreML.rstrip (CoreML.class_labels CoreML.convert))
      with CoreML.class_names.
    unfold CoreML.class_names. distinct_literals.
Qed.

End LookupFacts.

(** X11.  The labels given to the converter are pairwise distinct, and
    remain so once stripped; hence looking a probability up by the
    [i]-th label returns the [i]-th network output. *)
Theorem probability_lookup_by_label {P : Type} (probabilities : list P)
    (i : nat) (label : string) (p : P) :
  nth_error (CoreML.class_labels CoreML.convert) i = Some label ->
  nth_error probabilities i = Some p ->
  NoDup (CoreML.class_labels CoreML.convert) /\
  NoDup (map CoreML.rstrip (CoreML.class_labels CoreML.convert)) /\
  get (CoreML.class_probabilities CoreML.convert probabilities) label
  = Some p.
Proof.
  intros Hl Hp.
  destruct LookupFacts.class_labels_distinct as [Hnd Hnd'].
  split; [exact Hnd|]. split.
  - exact Hnd'.
  - unfold CoreML.class_probabilities.
    now apply (LookupFacts.get_combine _ _ i).
Qed.

Lemma probability_lookup_by_label_witness :
  get (CoreML.class_probabilities CoreML.convert
         [0; 0; 0; 1; 0; 0; 0; 0; 0; 0]%Z) "cat "%string
  = Some 1%Z.
Proof.
  refine (proj2 (proj2
    (probability_lookup_by_label [0; 0; 0; 1; 0; 0; 0; 0; 0; 0]%Z 3%nat
                                 "cat "%string 1%Z _ _))).
  - reflexivity.
  - reflexivity.
Defined.

(** X12.  A lookup by the clean class name finds a probability only for
    airplane, automobile and truck; for the seven names whose label
    carries a trailing space (bird to ship) it finds nothing, whatever
    the ten probabilities are. *)
Theorem clean_name_lookup {P : Type} (probabilities : list P)
    (i : nat) (name : string) :
  length probabilities = 10%nat ->
  nth_error CoreML.class_names i = Some name ->
  get (CoreML.class_probabilities CoreML.convert probabilities) name
  = if ((2 <=? i) && (i <=? 8))%nat then None
    else nth_error probabilities i.
Proof.
  intros Hlen Hname.
  destruct (((2 <=? i) && (i <=? 8))%nat) eqn:Hi.
  - unfold CoreML.class_probabilities.
    apply LookupFacts.get_absent.
    do 10 (destruct i as [|i];
           [first [discriminate Hi
                  | cbn in Hname; injection Hname as <-;
                    cbn; intros Hin;
                    repeat (destruct Hin as [Hin | Hin];
                            [discriminate Hin|]);
                    exact Hin] |]).
    destruct i; discriminate Hname.
  - assert (Hsome : exists p, nth_error probabilities i = Some p).
    { destruct (nth_error probabilities i) as [p|] eqn:E; [now exists p|].
      apply nth_error_None in E.
      assert (i < 10)%nat.
      { apply (nth_error_Some CoreML.class_names i). congruence. }
      lia. }
    destruct Hsome as [p Hp]. rewrite Hp.
    apply (LookupFacts.get_combine _ _ i).
    + exact (proj1 LookupFacts.class_labels_distinct).
    + do 10 (destruct i as [|i];
             [first [discriminate Hi | exact Hname] |]).
      destruct i; discriminate Hname.
    + exact Hp.
Qed.

Lemma clean_name_lookup_witness :
  get (CoreML.class_probabilities CoreML.convert
         [0; 0; 1; 0; 0; 0; 0; 0; 0; 0]%Z) "bird"%string
  = None.
Proof.
  apply (clean_name_lookup [0; 0; 1; 0; 0; 0; 0; 0; 0; 0]%Z 2%nat
                           "bird"%string); reflexivity.
Defined.

(** ** One-hot encoding *)

Module CategoricalFacts.
Import KerasUtils.
Local Open Scope Z_scope.

Lemma to_categorical_10 (y : list Z) :
  to_categorical y 10 = set_ones 10 y.
Proof. reflexivity. Qed.

Lemma set_ones_length (n : Z) (y : list Z) (rows : list (list Q)) :
  set_ones n y = Some rows -> length rows = length y.
Proof.
  revert rows. induction y as [|c y IH]; intros rows Hrows.
  - injection Hrows as <-. reflexivity.
  - cbn [set_ones] in Hrows.
    destruct (set_one n c) as [row|]; [|discriminate].
    destruct (set_ones n y) as [rows'|]; [|discriminate].
    injection Hrows as <-. cbn [length]. f_equal. now apply IH.
Qed.

Lemma set_ones_nth (n : Z) (y : list Z) (rows : list (list Q)) (i : nat)
    (c : Z) :
  set_ones n y = Some rows -> nth_error y i = Some c ->
  exists row, set_one n c = Some row /\ nth_error rows i = Some row.
Proof.
  revert rows i. induction y as [|c0 y IH]; intros rows i Hrows Hc.
  - destruct i; discriminate.
  - cbn [set_ones] in Hrows.
    destruct (set_one n c0) as [row0|] eqn:E0; [|discriminate].
    destruct (set_ones n y) as [rows'|]; [|discriminate].
    injection Hrows as <-.
    destruct i as [|i]; cbn [nth_error] in *.
    + injection Hc as <-. now exists row0.
    + now apply IH.
Qed.

Lemma set_ones_defined (n : Z) (y : list Z) :
  Forall (fun c => set_one n c <> None) y -> set_ones n y <> None.
Proof.
  induction 1 as [|c y Hc _ IH]; [discriminate|].
  cbn [set_ones].
  destruct (set_one n c); [|contradiction].
  destruct (set_ones n y); [discriminate | contradiction].
Qed.

Lemma set_ones_error (n : Z) (y : list Z) (c : Z) :
  In c y -> set_one n c = None -> set_ones n y = None.
Proof.
  induction y as [|c0 y IH]; intros Hin Hc; [destruct Hin|].
  cbn [set_ones]. destruct Hin as [-> | Hin].
  - now rewrite Hc.
  - rewrite (IH Hin Hc). now destruct (set_one n c0).
Qed.

Lemma class_cases (c : Z) :
  0 <= c < 10 ->
  c = 0 \/ c = 1 \/ c = 2 \/ c = 3 \/ c = 4 \/ c = 5 \/ c = 6 \/ c = 7
  \/ c = 8 \/ c = 9.
Proof. lia. Qed.

End CategoricalFacts.

(** X13.  For labels within 0..9, [to_categorical(y, 10)] succeeds with
    one row per label; the row of label [c] has 10 entries, 1 at index
    [c] and 0 elsewhere, so it sums to 1, and different labels give
    different rows. *)
Theorem to_categorical_one_hot (y : list Z) (i : nat) (c : Z) :
  Forall (fun c => (0 <= c < 10)%Z) y ->
  nth_error y i = Some c ->
  exists (rows : list (list Q)) (row : list Q),
    KerasUtils.to_categorical y 10 = Some rows /\
    length rows = length y /\
    nth_error rows i = Some row /\
    length row = 10%nat /\
    (forall j : nat, (j < 10)%nat ->
       nth_error row j = Some (if (Z.of_nat j =? c)%Z then 1 else 0)) /\
    fold_right Qplus 0 row == 1 /\
    (forall (i' : nat) (c' : Z),
       nth_error y i' = Some c' -> nth_error rows i' = Some row -> c' = c).
Proof.
  intros Hy Hc.
  rewrite CategoricalFacts.to_categorical_10.
  assert (Hrange : forall c0, (0 <= c0 < 10)%Z ->
            KerasUtils.set_one 10 c0
            = Some (map (fun j => if (Z.of_nat j =? c0)%Z then 1 else 0)
                        (seq 0 10))).
  { intros c0 Hc0. unfold KerasUtils.set_one.
    destruct (Z.ltb_spec c0 0) as [Hneg | _]; [lia|].
    destruct (Z.leb_spec 0 c0) as [_ | Hneg]; [|lia].
    destruct (Z.ltb_spec c0 10) as [_ | Hbig]; [|lia].
    reflexivity. }
  destruct (KerasUtils.set_ones 10 y) as [rows|] eqn:Erows.
  2:{ exfalso. revert Erows. apply CategoricalFacts.set_ones_defined.
      rewrite Forall_forall in *. intros c0 Hin.
      rewrite (Hrange c0 (Hy c0 Hin)). discriminate. }
  destruct (CategoricalFacts.set_ones_nth 10 y rows i c Erows Hc)
    as [row [Hrow Hnth]].
  assert (Hcr : (0 <= c < 10)%Z).
  { rewrite Forall_forall in Hy. apply Hy. eapply nth_error_In. exact Hc. }
  rewrite (Hrange c Hcr) in Hrow. injection Hrow as <-.
  exists rows.
  exists (map (fun j => if (Z.of_nat j =? c)%Z then 1 else 0) (seq 0 10)).
  split; [reflexivity|].
  split; [exact (CategoricalFacts.set_ones_length 10 y rows Erows)|].
  split; [exact Hnth|].
  split; [reflexivity|].
  split.
  { intros j Hj. rewrite nth_error_map.
    rewrite (nth_error_nth' (seq 0 10) 0%nat) by (rewrite length_seq; lia).
    rewrite seq_nth by lia. reflexivity. }
  split.
  { destruct (CategoricalFacts.class_cases c Hcr)
      as [-> | [-> | [-> | [-> | [-> | [-> | [-> | [-> | [-> | ->]]]]]]]]];
      reflexivity. }
  intros i' c' Hc' Hnth'.
  destruct (CategoricalFacts.set_ones_nth 10 y rows i' c' Erows Hc')
    as [row' [Hrow' Hnth'']].
  assert (Hcr' : (0 <= c' < 10)%Z).
  { rewrite Forall_forall in Hy. apply Hy. eapply nth_error_In. exact Hc'. }
  rewrite (Hrange c' Hcr') in Hrow'.
  rewrite Hnth' in Hnth''. injection Hnth'' as <-.
  destruct (CategoricalFacts.class_cases c Hcr)
    as [-> | [-> | [-> | [-> | [-> | [-> | [-> | [-> | [-> | ->]]]]]]]]];
    destruct (CategoricalFacts.class_cases c' Hcr')
      as [-> | [-> | [-> | [-> | [-> | [-> | [-> | [-> | [-> | ->]]]]]]]]];
    first [reflexivity | vm_compute in Hrow'; discriminate Hrow'].
Qed.

Lemma to_categorical_one_hot_witness :
  exists rows row : list _,
    KerasUtils.to_categorical [6; 9; 9; 4]%Z 10 = Some rows /\
    nth_error rows 1 = Some row /\
    nth_error row 9 = Some 1.
Proof.
  destruct (to_categorical_one_hot [6; 9; 9; 4]%Z 1%nat 9%Z)
    as (rows & row & Hrows & _ & Hrow & _ & Hnth & _).
  - repeat constructor; lia.
  - reflexivity.
  - exists rows, row. split; [exact Hrows|]. split; [exact Hrow|].
    apply (Hnth 9%nat). lia.
Defined.

(** X14.  [to_categorical(y, 10)] fails as soon as one label is 10 or
    more, or below -10; a label [c] within -10..-1 does not fail but is
    encoded exactly as the class [c + 10]. *)
Theorem to_categorical_out_of_range (y : list Z) (c : Z) :
  In c y ->
  ((10 <= c \/ c < -10)%Z -> KerasUtils.to_categorical y 10 = None) /\
  ((-10 <= c < 0)%Z ->
   KerasUtils.to_categorical [c] 10
   = KerasUtils.to_categorical [(c + 10)%Z] 10 /\
   KerasUtils.to_categorical [c] 10 <> None).
Proof.
  intros Hin. split.
  - intros Hout. rewrite CategoricalFacts.to_categorical_10.
    apply (CategoricalFacts.set_ones_error 10 y c Hin).
    unfold KerasUtils.set_one.
    destruct (Z.ltb_spec c 0) as [Hneg | Hpos].
    + destruct (Z.leb_spec 0 (c + 10)) as [Hge | _]; [lia | reflexivity].
    + destruct (Z.leb_spec 0 c) as [_ | Hlt]; [|lia].
      destruct (Z.ltb_spec c 10) as [Hlt | _]; [lia | reflexivity].
  - intros Hwrap.
    rewrite !CategoricalFacts.to_categorical_10.
    cbn [KerasUtils.set_ones]. unfold KerasUtils.set_one.
    destruct (Z.ltb_spec c 0) as [_ | Hpos]; [|lia].
    destruct (Z.ltb_spec (c + 10) 0) as [Hneg | _]; [lia|].
    destruct (Z.leb_spec 0 (c + 10)) as [_ | Hlt]; [|lia].
    destruct (Z.ltb_spec (c + 10) 10) as [_ | Hge]; [|lia].
    cbn [andb]. split; [reflexivity | discriminate].
Qed.

Lemma to_categorical_out_of_range_witness :
  KerasUtils.to_categorical [3; 10; 2]%Z 10 = None /\
  KerasUtils.to_categorical [-1]%Z 10 = KerasUtils.to_categorical [9]%Z 10.
Proof.
  split.
  - refine (proj1 (to_categorical_out_of_range [3; 10; 2]%Z 10%Z _) _).
    + right. left. reflexivity.
    + left. lia.
  - refine (proj1 (proj2 (to_categorical_out_of_range [-1]%Z (-1)%Z _) _)).
    + left. reflexivity.
    + lia.
Defined.

(** ** Stacking layers *)

Module StackFacts.
Import Hyper Network.
Local Open Scope Z_scope.

Lemma last_cons {T : Type} (l : list T) (x d : T) :
  last (x :: l) d = last l x.
Proof.
  revert x d. induction l as [|y l IH]; intros x d; [reflexivity|].
  change (last (x :: y :: l) d) with (last (y :: l) d).
  now rewrite (IH y d), (IH y x).
Qed.

Lemma last_app_cons {T : Type} (l l' : list T) (x d : T) :
  last (l ++ x :: l') d = last l' x.
Proof.
  revert d. induction l as [|y l IH]; intros d.
  - apply last_cons.
  - cbn [app]. rewrite last_cons. apply IH.
Qed.

Lemma output_shapes_app (l1 l2 : list layer) (s : shape) :
  output_shapes (l1 ++ l2) s
  = match output_shapes l1 s with
    | None => None
    | Some ss1 =>
      match output_shapes l2 (last ss1 s) with
      | None => None
      | Some ss2 => Some (ss1 ++ ss2)
      end
    end.
Proof.
  revert s. induction l1 as [|l l1 IH]; intros s.
  - cbn. now destruct (output_shapes l2 s).
  - cbn [app output_shapes].
    destruct (compute_output_shape l s) as [s1|]; [|reflexivity].
    rewrite IH.
    destruct (output_shapes l1 s1) as [ss1|]; [|reflexivity].
    replace (last (s1 :: ss1) s) with (last ss1 s1).
    + now destruct (output_shapes l2 (last ss1 s1)).
    + destruct ss1 as [|s2 ss1]; [reflexivity|].
      cbn [last]. clear. revert s2. induction ss1 as [|s3 ss1 IH]; intros s2.
      * reflexivity.
      * cbn [last] in *. apply IH.
Qed.

Lemma total_counts_app (l1 l2 : list layer) (s s' : shape) :
  output_shape l1 s = Some s' ->
  total_counts (l1 ++ l2) s
  = (fst (total_counts l1 s) + fst (total_counts l2 s'),
     snd (total_counts l1 s) + snd (total_counts l2 s')).
Proof.
  revert s. induction l1 as [|l l1 IH]; intros s Hs.
  - cbn in Hs. injection Hs as <-. cbn [app total_counts fst snd].
    now destruct (total_counts l2 s).
  - unfold output_shape in Hs. cbn [output_shapes] in Hs.
    cbn [app total_counts].
    destruct (compute_output_shape l s) as [s1|]; [|discriminate].
    destruct (output_shapes l1 s1) as [ss1|] eqn:E1; [|discriminate].
    assert (Hs1 : output_shape l1 s1 = Some s').
    { unfold output_shape. rewrite E1. injection Hs as <-. f_equal.
      destruct ss1 as [|s2 ss1]; [reflexivity|].
      cbn [last]. clear. revert s2. induction ss1 as [|s3 ss1 IH]; intros s2.
      - reflexivity.
      - cbn [last] in *. apply IH. }
    rewrite (IH s1 Hs1).
    destruct (count_params l s) as [t n].
    destruct (total_counts l1 s1) as [t1 n1].
    cbn [fst snd]. f_equal; lia.
Qed.

Lemma summary_sum (ls : list layer) (s : shape) :
  fold_right Z.add 0 (map snd (summary ls s))
  = fst (total_counts ls s) + snd (total_counts ls s).
Proof.
  revert s. induction ls as [|l ls IH]; intros s; [reflexivity|].
  cbn [summary total_counts].
  destruct (compute_output_shape l s) as [s1|]; [|reflexivity].
  destruct (count_params l s) as [t n].
  cbn [map snd fold_right]. rewrite IH.
  destruct (total_counts ls s1) as [t1 n1]. cbn [fst snd]. lia.
Qed.

Lemma summary_length (ls : list layer) (s : shape) :
  output_shapes ls s <> None -> length (summary ls s) = length ls.
Proof.
  revert s. induction ls as [|l ls IH]; intros s Hs; [reflexivity|].
  cbn [summary output_shapes] in *.
  destruct (compute_output_shape l s) as [s1|]; [|contradiction].
  destruct (count_params l s) as [t n]. cbn [length]. f_equal.
  apply IH. now destruct (output_shapes ls s1).
Qed.

Lemma output_shape_app (l1 l2 : list layer) (s s' : shape) :
  output_shape l1 s = Some s' ->
  output_shapes l2 s' <> None ->
  output_shapes (l1 ++ l2) s <> None /\
  output_shape (l1 ++ l2) s = output_shape l2 s'.
Proof.
  intros Hs Hs'.
  unfold output_shape in *. rewrite output_shapes_app.
  destruct (output_shapes l1 s) as [ss1|]; [|discriminate].
  injection Hs as Hs. rewrite Hs.
  destruct (output_shapes l2 s') as [ss2|]; [|contradiction].
  split; [discriminate|]. f_equal.
  destruct ss2 as [|s2 ss2].
  - now rewrite app_nil_r.
  - rewrite last_app_cons. symmetry. apply last_cons.
Qed.

(** The convolutional blocks on an input of any extent. *)
Lemma blocks_output_shape (b h w : Z) :
  output_shape (List.concat blocks) [b; h; w; 3]
  = Some [b; h / 32; w / 32; 512].
Proof.
  assert (Hhalf : forall x : Z, (x - 2 + 1 + 2 - 1) / 2 = x / 2).
  { intros x. f_equal. lia. }
  assert (Hsame : forall x : Z, (x + 1 - 1) / 1 = x).
  { intros x. rewrite Z.div_1_r. lia. }
  unfold output_shape, blocks, block1, block2, block3, block4, block5.
  cbn [List.concat app output_shapes compute_output_shape last].
  unfold conv_output_length. rewrite !Hsame, !Hhalf.
  rewrite !Z.div_div by lia. reflexivity.
Qed.

Lemma blocks_counts (b h w : Z) :
  total_counts (List.concat blocks) [b; h; w; 3] = (14723136, 8448).
Proof. reflexivity. Qed.

End StackFacts.



(** X16.  With [input_shape] set to [(h, w, 3)], [h] and [w] at least
    32, the five blocks turn a batch into shape
    [(b, h // 32, w // 32, 512)] and hold 14,723,136 trainable and 8,448
    non-trainable parameters whatever [b], [h] and [w] are; the model
    still ends in shape [(b, 10)], and only its first dense layer grows
    with the input, by [512 * 512] weights per position left after the
    last pooling. *)
Theorem parameters_by_input_extent (b h w : Z) :
  (32 <= h)%Z -> (32 <= w)%Z ->
  output_shape (List.concat blocks) [b; h; w; 3]%Z
  = Some [b; h / 32; w / 32; 512]%Z /\
  total_counts (List.concat blocks) [b; h; w; 3]%Z
  = (14723136, 8448)%Z /\
  output_shape model [b; h; w; 3]%Z = Some [b; 10]%Z /\
  total_counts model [b; h; w; 3]%Z
  = (14723136 + ((h / 32) * (w / 32) * 512 * 512 + 512) + 1024 + 5130,
     9472)%Z.
Proof.
  intros _ _.
  pose proof (StackFacts.blocks_output_shape b h w) as Hshape.
  split; [exact Hshape|].
  split; [reflexivity|].
  unfold model.
  split.
  - rewrite (proj2 (StackFacts.output_shape_app _ head _ _ Hshape
                      ltac:(discriminate))).
    reflexivity.
  - rewrite (StackFacts.total_counts_app _ _ _ _ Hshape).
    rewrite StackFacts.blocks_counts.
    cbn [head total_counts compute_output_shape count_params last fst snd
         fold_right]. 
    f_equal; unfold classes; lia.
Qed.

Lemma parameters_by_input_extent_witness :
  total_counts model [1; 64; 64; 3]%Z
  = (14723136 + ((64 / 32) * (64 / 32) * 512 * 512 + 512) + 1024 + 5130,
     9472)%Z.
Proof.
  refine (proj2 (proj2 (proj2 (parameters_by_input_extent 1 64 64 _ _))));
    lia.
Defined.

(** ** The predicted class *)

Module SoftmaxFacts.
Import Forward.
Local Open Scope R_scope.

Lemma softmax_nth (z : list R) (i : nat) :
  nth_error (softmax_R z) i
  = option_map (fun x => exp x / sum (map exp z)) (nth_error z i).
Proof.
  unfold softmax_R. cbv zeta. rewrite !nth_error_map.
  now destruct (nth_error z i).
Qed.

Lemma exp_le_sum (z : list R) (x : R) :
  In x z -> exp x <= sum (map exp z).
Proof.
  induction z as [|y z IH]; intros Hin; [destruct Hin|].
  cbn [map sum fold_right]. fold (sum (map exp z)).
  destruct Hin as [-> | Hin].
  - destruct z as [|y' z].
    + cbn. lra.
    + pose proof (ForwardFacts.sum_exp_pos (y' :: z) ltac:(discriminate)).
      lra.
  - pose proof (exp_pos y). specialize (IH Hin). lra.
Qed.

End SoftmaxFacts.


